(** * social_post.js: the Bluesky post dispatcher of emberstats

    A shallow embedding of [src/emberstats/scripts/social_post.js] and the
    properties of its two functions, [shouldPost] and [postToBluesky].

    The script is Google Apps Script (JavaScript).  Its values are modelled
    by the type [value], exceptions by the string that [e.toString()] gives,
    and the services it calls (spreadsheet, HTTP client, logger, clock) by a
    world that is passed along explicitly and that records every call. *)

From Stdlib Require Import ZArith QArith Qround Lia.
From stdpp Require Import base strings list gmap pretty.

Local Open Scope Z_scope.

(** ** JavaScript values *)

(** A Number: every finite double is a rational, so rationals cover them;
    [-0] and [+0] are not told apart (nothing in the script does). *)
Inductive number :=
| NaN
| Infinity (negative : bool)
| Finite (q : Q).

(** What a cell of [getValues()] can hold (a string, a number, a boolean
    or a Date), and [undefined], which an index beyond a row's end gives.
    An empty cell is the empty string.  A Date carries its time value in
    milliseconds since the epoch, [None] for NaN (an invalid date). *)
Inductive value :=
| VUndefined
| VBoolean (b : bool)
| VNumber (n : number)
| VString (s : string)
| VDate (t : option Z).

(** The condition of [if], [&&]: undefined, false, 0, NaN and the empty
    string are falsy, everything else (every object too) is truthy. *)
Definition ToBoolean (v : value) : bool :=
  match v with
  | VUndefined => false
  | VBoolean b => b
  | VNumber NaN => false
  | VNumber (Infinity _) => true
  | VNumber (Finite q) => negb (Qnum q =? 0)
  | VString s => negb (bool_decide (s = ""))
  | VDate _ => true
  end.

(** [a && b]: the left operand itself when it is falsy, else the right. *)
Definition js_and (a b : value) : value :=
  if ToBoolean a then b else a.

(** Number::equal, NaN differs from everything. *)
Definition Number_equal (a b : number) : bool :=
  match a, b with
  | Finite p, Finite q => Qeq_bool p q
  | Infinity s, Infinity t => Bool.eqb s t
  | _, _ => false
  end.

(** ToNumber on the primitives that are not strings. *)
Definition ToNumber_bool (b : bool) : number :=
  Finite (if b then 1%Q else 0%Q).

(** ToNumber("Ready"): the text is no numeric literal. *)
Definition ToNumber_Ready : number := NaN.

(** [v == "Ready"], the loose comparison of line 71 (IsLooselyEqual with
    a string on the right): strings compare by content, a number with
    ToNumber of the string, a boolean is first turned into a number, and
    a Date is turned into its [toString()] text, which reads like
    "Mon Jan 01 2024 ..." or "Invalid Date", never "Ready". *)
Definition looselyEqualsReady (v : value) : bool :=
  match v with
  | VUndefined => false
  | VBoolean b => Number_equal (ToNumber_bool b) ToNumber_Ready
  | VNumber n => Number_equal n ToNumber_Ready
  | VString s => bool_decide (s = "Ready")
  | VDate _ => false
  end.

(** ** Dates *)

Definition msPerDay : Z := 86400000.
Definition maxTimeValue : Z := 8640000000000000.

(** TimeClip on an integral time: NaN beyond 100,000,000 days. *)
Definition TimeClip (t : Z) : option Z :=
  if Z.abs t <=? maxTimeValue then Some t else None.

(** ToIntegerOrInfinity of a finite number: truncation toward zero. *)
Definition truncate (q : Q) : Z := Z.quot (Qnum q) (Z.pos (Qden q)).

(** What the script takes from the JavaScript runtime it is loaded in. *)
Record Runtime := {
  (** offset of the script's time zone from UTC in milliseconds; a zone
      with a constant offset (no daylight-saving change is modelled) *)
  LocalTZA : Z;
  (** [Date.parse]: the time value of a date text, [None] for NaN *)
  Date_parse : string -> option Z;
  (** the time value of [new Date()] at line 9, when the script loads *)
  load_time : Z
}.

(** [new Date(v)] for one argument: a Date is copied, a string is parsed,
    anything else goes through ToNumber and TimeClip. *)
Definition new_Date (rt : Runtime) (v : value) : option Z :=
  match v with
  | VDate t => t
  | VString s => Date_parse rt s
  | VNumber (Finite q) => TimeClip (truncate q)
  | VNumber _ => None
  | VBoolean b => TimeClip (if b then 1 else 0)
  | VUndefined => None
  end.

(** [d.setHours(0, 0, 0, 0)]: the start of the local day of [d]. *)
Definition setHours0 (rt : Runtime) (d : option Z) : option Z :=
  match d with
  | None => None
  | Some t => TimeClip ((t + LocalTZA rt) / msPerDay * msPerDay - LocalTZA rt)
  end.

(** [a <= b] on two Dates: on their time values, false when one is NaN. *)
Definition date_le (a b : option Z) : bool :=
  match a, b with
  | Some x, Some y => x <=? y
  | _, _ => false
  end.

(** Lines 9-11: the global [today]. *)
Definition today (rt : Runtime) : option Z :=
  setHours0 rt (Some (load_time rt)).

(** ** Results of calls that can throw *)

(** An exception is kept as the text of its [toString()]. *)
Inductive outcome (A : Type) :=
| Ok (a : A)
| Throw (e : string).
Arguments Ok {A} a.
Arguments Throw {A} e.

(** ** shouldPost *)

Abbreviation grid := (list (list value)).

(** [r[i]] on a row: [undefined] beyond its end. *)
Definition cell (r : list value) (i : nat) : value :=
  default VUndefined (r !! i).

(** Lines 66-72.  [data[row]] is undefined when [row] is out of range and
    reading its index 8 throws a TypeError. *)
Definition shouldPost (rt : Runtime) (data : grid) (row : nat) : outcome value :=
  match data !! row with
  | None => Throw "TypeError: Cannot read properties of undefined (reading '8')"
  | Some r =>
      let content := cell r 8 in
      let status := cell r 0 in
      let rowDate := new_Date rt (cell r 1) in
      let rowDate := setHours0 rt rowDate in
      Ok (js_and (js_and content (VBoolean (looselyEqualsReady status)))
                 (VBoolean (date_le rowDate (today rt))))
  end.

(** ** The services and the world *)

(** The body sent to [createRecord] (lines 40-48).  [createdAt] is kept as
    the time value that [toISOString()] renders. *)
Record PostRecord := {
  repo : value;
  collection : string;
  record_type : string;
  record_text : value;
  record_createdAt : Z
}.

(** The three messages the script logs; [render] is the text logged. *)
Inductive logmsg :=
| Searching (sheetName : string)
| Posting (row_number : nat)
| ErrorPosting (row_number : nat) (e : string).

Definition render (m : logmsg) : string :=
  match m with
  | Searching sheetName => "Searching for posts in " +:+ sheetName
  | Posting row_number => "Posting row " +:+ pretty row_number
  | ErrorPosting row_number e =>
      "Error posting row " +:+ pretty row_number +:+ ": " +:+ e
  end.

(** Every call the script makes to a service, in the order made.  A call
    that can throw carries what it threw ([None]: it returned). *)
Inductive event :=
| EvOpenById (id : string) (thrown : option string)
| EvCreateSession (identifier password : string) (thrown : option string)
| EvLog (m : logmsg)
| EvGetValues (sheetName : string)
| EvCreateRecord (token : value) (r : PostRecord) (thrown : option string)
| EvSetValue (sheetName : string) (row column : nat) (v : value)
             (thrown : option string).

(** The parsed session: the two properties the script reads from it,
    [undefined] when the object lacks them. *)
Record Session := { accessJwt : value; did : value }.

(** How the services answer.  Each answer may depend on all calls made so
    far.  [JSON_parse] gives [None] for the JSON text [null]. *)
Record Services := {
  openById_throws : string -> list event -> option string;
  createSession_response : string -> string -> list event -> outcome string;
  JSON_parse : string -> outcome (option Session);
  createRecord_throws : value -> PostRecord -> list event -> option string;
  setValue_throws : string -> nat -> nat -> value -> list event -> option string;
  clock : list event -> Z
}.

(** The spreadsheet (tab name to the values of its data range; an empty
    sheet has the one empty cell) and the calls made so far, oldest first. *)
Record World := {
  tabs : gmap string grid;
  trace : list event
}.

(** A computation: it may throw, and it changes the world either way. *)
Definition M (A : Type) : Type := World -> outcome A * World.

Definition ret {A} (a : A) : M A := fun w => (Ok a, w).

Definition throw {A} (e : string) : M A := fun w => (Throw e, w).

Definition bind {A B} (c : M A) (k : A -> M B) : M B :=
  fun w =>
    match c w with
    | (Ok a, w') => k a w'
    | (Throw e, w') => (Throw e, w')
    end.

(** [try { body } catch (e) { handler }] *)
Definition try_catch {A} (body : M A) (handler : string -> M A) : M A :=
  fun w =>
    match body w with
    | (Ok a, w') => (Ok a, w')
    | (Throw e, w') => handler e w'
    end.

Declare Scope js_scope.
Delimit Scope js_scope with js.
Notation "x <- c ;; k" := (bind c (fun x => k))
  (at level 100, c at next level, right associativity) : js_scope.
Notation "c ;; k" := (bind c (fun _ => k))
  (at level 100, right associativity) : js_scope.
Local Open Scope js_scope.

Definition lift {A} (o : outcome A) : M A := fun w => (o, w).

Definition emit (e : event) : M unit :=
  fun w => (Ok tt, {| tabs := tabs w; trace := trace w ++ [e] |}).

(** A call that returns nothing: recorded, then it throws or returns. *)
Definition call (ev : option string -> event) (thrown : option string) : M unit :=
  emit (ev thrown) ;;
  match thrown with
  | Some e => throw e
  | None => ret tt
  end.

Definition Logger_log (m : logmsg) : M unit := emit (EvLog m).

Definition SpreadsheetApp_openById (sv : Services) (id : string) : M unit :=
  fun w => call (EvOpenById id) (openById_throws sv id (trace w)) w.

(** Lines 18-22: the fetch of [createSession]; its result is the text of
    the response, [authResponse.getContentText()]. *)
Definition fetch_createSession (sv : Services) (identifier password : string)
  : M string :=
  fun w =>
    match createSession_response sv identifier password (trace w) with
    | Ok body => (emit (EvCreateSession identifier password None) ;; ret body) w
    | Throw e => (emit (EvCreateSession identifier password (Some e)) ;; throw e) w
    end.

(** Lines 23-25: [JSON.parse], then the two property reads, which throw a
    TypeError on [null]. *)
Definition parse_session (sv : Services) (body : string) : M Session :=
  parsed <- lift (JSON_parse sv body) ;;
  match parsed with
  | Some s => ret s
  | None => throw "TypeError: Cannot read properties of null (reading 'accessJwt')"
  end.

(** Lines 30-31: [getSheetByName] gives [null] for a tab that does not
    exist and [getDataRange] on [null] throws; else the values are read. *)
Definition getValues (sheetName : string) : M grid :=
  fun w =>
    match tabs w !! sheetName with
    | None =>
        (Throw "TypeError: Cannot read properties of null (reading 'getDataRange')", w)
    | Some data => (emit (EvGetValues sheetName) ;; ret data) w
    end.

(** [l[n] = f(l[n])] on a range that grows when [n] is beyond its end. *)
Fixpoint update_at {A} (pad : A) (f : A -> A) (n : nat) (l : list A) : list A :=
  match n, l with
  | O, [] => [f pad]
  | O, x :: l' => f x :: l'
  | S n', [] => pad :: update_at pad f n' []
  | S n', x :: l' => x :: update_at pad f n' l'
  end.

(** The cell at sheet position ([row], [column]), both counted from 1. *)
Definition write_cell (row column : nat) (v : value) (g : grid) : grid :=
  update_at [] (update_at (VString "") (fun _ => v) (column - 1)) (row - 1) g.

(** Line 57: [sheet.getRange(row, column).setValue(v)]. *)
Definition setValue (sv : Services) (sheetName : string) (row column : nat)
    (v : value) : M unit :=
  fun w =>
    let thrown := setValue_throws sv sheetName row column v (trace w) in
    (call (EvSetValue sheetName row column v) thrown ;;
     fun w' => (Ok tt, {| tabs := alter (write_cell row column v) sheetName (tabs w');
                          trace := trace w' |})) w.

(** Lines 50-55: the fetch of [createRecord] with the bearer token. *)
Definition fetch_createRecord (sv : Services) (token : value) (r : PostRecord)
  : M unit :=
  fun w => call (EvCreateRecord token r) (createRecord_throws sv token r (trace w)) w.

Definition Date_now (sv : Services) : M Z := fun w => (Ok (clock sv (trace w)), w).

(** ** postToBluesky *)

Definition BSKY_HANDLE : string := "yourhandle.bsky.social".
Definition APP_PASSWORD : string := "xxxx-xxxx-xxxx-xxxx".
Definition SHEET_ID : string := "your-sheet-id".
Definition SHEET_NAMES : list string := ["Peak Share"; "Peak Generation"].

(** Lines 40-48: the object [postRecord]. *)
Definition make_postRecord (did content : value) (createdAt : Z) : PostRecord :=
  {| repo := did;
     collection := "app.bsky.feed.post";
     record_type := "app.bsky.feed.post";
     record_text := content;
     record_createdAt := createdAt |}.

(** Lines 39-60: the try block and its handler. *)
Definition postRow (sv : Services) (sheetName : string) (token did content : value)
    (row_number : nat) : M unit :=
  try_catch
    (createdAt <- Date_now sv ;;
     let postRecord := make_postRecord did content createdAt in
     fetch_createRecord sv token postRecord ;;
     setValue sv sheetName row_number 1 (VString "Posted"))
    (fun e => Logger_log (ErrorPosting row_number e)).

(** Lines 35-61: the body of the loop over the rows, at index [i]. *)
Definition rowBody (sv : Services) (rt : Runtime) (sheetName : string)
    (token did : value) (data : grid) (i : nat) : M unit :=
  wanted <- lift (shouldPost rt data i) ;;
  if ToBoolean wanted then
    let content := cell (default [] (data !! i)) 8 in
    let row_number := (i + 1)%nat in
    Logger_log (Posting row_number) ;;
    postRow sv sheetName token did content row_number
  else ret tt.

(** Line 34: [for (let i = ...; i < data.length; i++)] with [n] rounds
    left, [n = data.length - i]. *)
Fixpoint rowLoop (sv : Services) (rt : Runtime) (sheetName : string)
    (token did : value) (data : grid) (n i : nat) : M unit :=
  match n with
  | O => ret tt
  | S n' =>
      rowBody sv rt sheetName token did data i ;;
      rowLoop sv rt sheetName token did data n' (S i)
  end.

(** Lines 29-62: the body of the loop over the tabs. *)
Definition sheetBody (sv : Services) (rt : Runtime) (token did : value)
    (sheetName : string) : M unit :=
  Logger_log (Searching sheetName) ;;
  data <- getValues sheetName ;;
  rowLoop sv rt sheetName token did data (length data - 1) 1.

(** Line 28: [for (const sheetName of ...)]. *)
Fixpoint sheetLoop (sv : Services) (rt : Runtime) (token did : value)
    (names : list string) : M unit :=
  match names with
  | [] => ret tt
  | sheetName :: rest =>
      sheetBody sv rt token did sheetName ;;
      sheetLoop sv rt token did rest
  end.

(** Lines 13-64. *)
Definition postToBluesky (sv : Services) (rt : Runtime) : M unit :=
  SpreadsheetApp_openById sv SHEET_ID ;;
  body <- fetch_createSession sv BSKY_HANDLE APP_PASSWORD ;;
  session <- parse_session sv body ;;
  let token := accessJwt session in
  let did := did session in
  sheetLoop sv rt token did SHEET_NAMES.

(** ** A runtime and services to run the model on *)

(** The date-only ISO form [YYYY-MM-DD] of [Date.parse], which is read as
    midnight UTC; every other text is NaN in this runtime. *)
Definition digit (c : Ascii.ascii) : option Z :=
  let n := Z.of_N (Ascii.N_of_ascii c) in
  if (48 <=? n) && (n <=? 57) then Some (n - 48) else None.

Definition is_leap (y : Z) : bool :=
  (y mod 4 =? 0) && (negb (y mod 100 =? 0) || (y mod 400 =? 0)).

Definition days_in_month (y m : Z) : Z :=
  if m =? 2 then (if is_leap y then 29 else 28)
  else if (m =? 4) || (m =? 6) || (m =? 9) || (m =? 11) then 30
  else 31.

(** Days from 1970-01-01 to the civil date [y]-[m]-[d]. *)
Definition days_from_civil (y m d : Z) : Z :=
  let y' := if m <=? 2 then y - 1 else y in
  let era := y' / 400 in
  let yoe := y' - era * 400 in
  let doy := (153 * (if 2 <? m then m - 3 else m + 9) + 2) / 5 + d - 1 in
  let doe := yoe * 365 + yoe / 4 - yoe / 100 + doy in
  era * 146097 + doe - 719468.

Definition Date_parse_iso (s : string) : option Z :=
  match String.list_ascii_of_string s with
  | [y1; y2; y3; y4; dash1; m1; m2; dash2; d1; d2] =>
      y1 ← digit y1; y2 ← digit y2; y3 ← digit y3; y4 ← digit y4;
      m1 ← digit m1; m2 ← digit m2; d1 ← digit d1; d2 ← digit d2;
      let y := 1000 * y1 + 100 * y2 + 10 * y3 + y4 in
      let m := 10 * m1 + m2 in
      let d := 10 * d1 + d2 in
      if (Z.of_N (Ascii.N_of_ascii dash1) =? 45)
         && (Z.of_N (Ascii.N_of_ascii dash2) =? 45)
         && (1 <=? m) && (m <=? 12) && (1 <=? d) && (d <=? days_in_month y m)
      then Some (days_from_civil y m d * msPerDay)
      else None
  | _ => None
  end.

(** A runtime in the zone UTC whose script loads at [t]. *)
Definition utc_runtime (t : Z) : Runtime :=
  {| LocalTZA := 0; Date_parse := Date_parse_iso; load_time := t |}.

(** Services on which every call returns: the session has the given
    token and account, the clock stands at [t]. *)
Definition obliging (token account : string) (t : Z) : Services :=
  {| openById_throws := fun _ _ => None;
     createSession_response := fun _ _ _ => Ok "{...}";
     JSON_parse := fun _ =>
       Ok (Some {| accessJwt := VString token; did := VString account |});
     createRecord_throws := fun _ _ _ => None;
     setValue_throws := fun _ _ _ _ _ => None;
     clock := fun _ => t |}.

(** Twelve noon UTC of 2024-01-02. *)
Definition noon_2024_01_02 : Z := 1704196800000.

(** Rows to run [shouldPost] on.  The header is row 1 of the sheet. *)
Definition header : list value :=
  [VString "Status"; VString "Date"; VString ""; VString ""; VString "";
   VString ""; VString ""; VString ""; VString "Content"].

Definition make_row (status date content : value) : list value :=
  [status; date; VString ""; VString ""; VString ""; VString ""; VString "";
   VString ""; content].

Definition jan_1 : value := VString "2024-01-01".
Definition jan_2 : value := VString "2024-01-02".

(** A row due the day before, whose content cell holds the number 0. *)
Definition zero_content_row : list value :=
  make_row (VString "Ready") jan_1 (VNumber (Finite 0%Q)).

(** A row due the day before, whose content cell holds one space. *)
Definition blank_content_row : list value :=
  make_row (VString "Ready") jan_1 (VString " ").

(** A row due on the day the script runs, with the number 0 as content. *)
Definition zero_content_row_today : list value :=
  make_row (VString "Ready") jan_2 (VNumber (Finite 0%Q)).

(** ** Reading a trace *)

(** What a recorded call threw, [None] for a call that returned and for
    the calls that cannot throw. *)
Definition thrown_by (e : event) : option string :=
  match e with
  | EvOpenById _ thrown => thrown
  | EvCreateSession _ _ thrown => thrown
  | EvLog _ => None
  | EvGetValues _ => None
  | EvCreateRecord _ _ thrown => thrown
  | EvSetValue _ _ _ _ thrown => thrown
  end.

(** A run without error: no call in it threw. *)
Definition no_error (tr : list event) : Prop :=
  Forall (fun e => thrown_by e = None) tr.

(** The part of a trace that tells which tab was read, which row the
    posting step was entered for, and which text was submitted. *)
Inductive visit :=
| Read (sheetName : string)
| Announce (row_number : nat)
| Submit (text : value).

Definition visit_of (e : event) : list visit :=
  match e with
  | EvGetValues sheetName => [Read sheetName]
  | EvLog (Posting row_number) => [Announce row_number]
  | EvCreateRecord _ r _ => [Submit (record_text r)]
  | _ => []
  end.

Definition visits (tr : list event) : list visit := tr ≫= visit_of.

(** The rows submitted in a trace, each as the tab last read and the row
    number last announced before the submission. *)
Fixpoint posted_rows (tab : string) (row_number : nat) (vs : list visit)
  : list (string * nat) :=
  match vs with
  | [] => []
  | Read sheetName :: vs' => posted_rows sheetName row_number vs'
  | Announce k :: vs' => posted_rows tab k vs'
  | Submit _ :: vs' => (tab, row_number) :: posted_rows tab row_number vs'
  end.

(** The condition of line 35. *)
Definition qualifies (rt : Runtime) (data : grid) (i : nat) : bool :=
  match shouldPost rt data i with
  | Ok v => ToBoolean v
  | Throw _ => false
  end.

(** The control flow in the words of the specification: the tabs in
    their order; for each one read of the range, then the rows from the
    second to the last, top to bottom, and the posting step for the rows
    that qualify. *)
Definition spec_row_visits (rt : Runtime) (data : grid) (i : nat) : list visit :=
  if qualifies rt data i
  then [Announce (i + 1)%nat; Submit (cell (default [] (data !! i)) 8)]
  else [].

Definition spec_tab_visits (rt : Runtime) (data : grid) (sheetName : string)
  : list visit :=
  Read sheetName :: (seq 1 (length data - 1) ≫= spec_row_visits rt data).

Definition spec_visits (rt : Runtime) (sheets : gmap string grid)
    (names : list string) : list visit :=
  names ≫= (fun name => spec_tab_visits rt (default [] (sheets !! name)) name).

(** The rows that are posted, by that control flow: the tab and the row
    number in the sheet. *)
Definition spec_posted_rows (rt : Runtime) (sheets : gmap string grid)
    (names : list string) : list (string * nat) :=
  names ≫= (fun name =>
    let data := default [] (sheets !! name) in
    (fun i => (name, (i + 1)%nat))
      <$> filter (fun i => qualifies rt data i = true) (seq 1 (length data - 1))).

(** The events a run added to the trace it started from. *)
Definition run_events (sv : Services) (rt : Runtime) (w : World) : list event :=
  drop (length (trace w)) (trace (snd (postToBluesky sv rt w))).

(** The status cell of a row after "Posted" was written to it. *)
Definition mark_posted (r : list value) : list value :=
  update_at (VString "") (fun _ => VString "Posted") 0 r.

(** The trace when the fetch of line 50 is made for the row at index
    [i], and the record that is sent then. *)
Definition trace_at_post (w : World) (i : nat) : list event :=
  trace w ++ [EvLog (Posting (i + 1))].

Definition record_for (sv : Services) (account : value) (data : grid)
    (w : World) (i : nat) : PostRecord :=
  make_postRecord account (cell (default [] (data !! i)) 8)
                  (clock sv (trace_at_post w i)).

(** A sheet with one row to post, and the world of the two tabs: the
    row in "Peak Share", nothing but the header in "Peak Generation". *)
Definition hello_row : list value :=
  make_row (VString "Ready") jan_1 (VString "Hello world").

Definition sample_world : World :=
  {| tabs := <["Peak Share" := [header; hello_row]]>
               (<["Peak Generation" := [header]]> ∅);
     trace := [] |}.

(** A world with more to do: in "Peak Share" the rows 2 and 5 qualify,
    row 3 is already posted and row 4 is due the day after; in "Peak
    Generation" row 2 qualifies. *)
Definition busy_world : World :=
  {| tabs :=
       <["Peak Share" :=
           [header;
            hello_row;
            make_row (VString "Posted") jan_1 (VString "Old news");
            make_row (VString "Ready") (VString "2024-01-03") (VString "Too early");
            make_row (VString "Ready") jan_2 (VString "Second")]]>
         (<["Peak Generation" :=
              [header; make_row (VString "Ready") jan_2 (VString "Third")]]> ∅);
     trace := [] |}.

(** Services on which the fetch of [createRecord] throws. *)
Definition refusing_posts (token account : string) (t : Z) : Services :=
  {| openById_throws := fun _ _ => None;
     createSession_response := fun _ _ _ => Ok "{...}";
     JSON_parse := fun _ =>
       Ok (Some {| accessJwt := VString token; did := VString account |});
     createRecord_throws := fun _ _ _ => Some "Exception: Request failed";
     setValue_throws := fun _ _ _ _ _ => None;
     clock := fun _ => t |}.

(** Services on which the write of the status cell throws. *)
Definition refusing_writes (token account : string) (t : Z) : Services :=
  {| openById_throws := fun _ _ => None;
     createSession_response := fun _ _ _ => Ok "{...}";
     JSON_parse := fun _ =>
       Ok (Some {| accessJwt := VString token; did := VString account |});
     createRecord_throws := fun _ _ _ => None;
     setValue_throws := fun _ _ _ _ _ => Some "Exception: Service error";
     clock := fun _ => t |}.

(** Services on which the fetch of [createSession] throws. *)
Definition refusing_sessions : Services :=
  {| openById_throws := fun _ _ => None;
     createSession_response := fun _ _ _ => Throw "Exception: Unauthorized";
     JSON_parse := fun _ => Ok None;
     createRecord_throws := fun _ _ _ => None;
     setValue_throws := fun _ _ _ _ _ => None;
     clock := fun _ => 0 |}.

(** How a world [w1] has moved on from [w] while a tab was processed: the
    events added, the range [g1] of the tab where [w] had [g], and the
    other tabs as they were. *)
Definition moved (sheetName : string) (w w1 : World) (new : list event)
    (g g1 : grid) : Prop :=
  trace w1 = trace w ++ new /\
  tabs w1 !! sheetName = Some g1 /\
  (forall other, other <> sheetName -> tabs w1 !! other = tabs w !! other) /\
  length g1 = length g.

(** After a run without error from [w] to [w']: in each tab of [names],
    every row that qualified has "Posted" as its status. *)
Definition marks (rt : Runtime) (w w' : World) (names : list string) : Prop :=
  forall name g,
    name ∈ names ->
    tabs w !! name = Some g ->
    exists g',
      tabs w' !! name = Some g' /\
      forall j, (1 <= j < length g)%nat -> qualifies rt g j = true ->
                g' !! j = mark_posted <$> g !! j.

(** The spreadsheet opens and the authentication gives a session. *)
Definition signed_in (sv : Services) (w : World) : Prop :=
  openById_throws sv SHEET_ID (trace w) = None /\
  exists body s,
    createSession_response sv BSKY_HANDLE APP_PASSWORD
      (trace w ++ [EvOpenById SHEET_ID None]) = Ok body /\
    JSON_parse sv body = Ok (Some s).

(** ** What a run may do *)

(** The events of the work on one tab whose range has [rows] rows, with
    the session's token and account: the two of lines 29-31, the log
    entries and the fetch of the posting step, and the write of "Posted"
    in column 1 of a row below the header and within the range. *)
Definition tab_event (sheetName : string) (rows : nat) (token account : value)
    (e : event) : Prop :=
  match e with
  | EvLog (Searching name) => name = sheetName
  | EvGetValues name => name = sheetName
  | EvLog (Posting k) => (2 <= k <= rows)%nat
  | EvLog (ErrorPosting k _) => (2 <= k <= rows)%nat
  | EvCreateRecord tok r _ =>
      tok = token /\ repo r = account /\
      collection r = "app.bsky.feed.post" /\ record_type r = "app.bsky.feed.post"
  | EvSetValue name row column v _ =>
      name = sheetName /\ (2 <= row <= rows)%nat /\ column = 1%nat /\
      v = VString "Posted"
  | _ => False
  end.

(** The events of the loop over the tabs [names] of the spreadsheet
    [sheets]. *)
Definition loop_event (names : list string) (sheets : gmap string grid)
    (token account : value) (e : event) : Prop :=
  exists name,
    name ∈ names /\
    tab_event name (length (default [] (sheets !! name))) token account e.

(** The events of a run from the world [w]: the two calls of lines 15-22
    with the constants of the script, and, once a session was parsed, the
    events of the loop with that session. *)
Definition run_event (sv : Services) (w : World) (e : event) : Prop :=
  match e with
  | EvOpenById id _ => id = SHEET_ID
  | EvCreateSession identifier password _ =>
      identifier = BSKY_HANDLE /\ password = APP_PASSWORD
  | _ =>
      exists body s,
        createSession_response sv BSKY_HANDLE APP_PASSWORD
          (trace w ++ [EvOpenById SHEET_ID None]) = Ok body /\
        JSON_parse sv body = Ok (Some s) /\
        loop_event SHEET_NAMES (tabs w) (accessJwt s) (did s) e
  end.

(** Whether the event [e] may come after the events [p2], [p1] (the last
    one is [p1]): the spreadsheet is opened first, the session is asked
    for right after it opened, a range is read right after the search for
    its tab is logged, a post is fetched right after its row is
    announced, "Posted" is written for the announced row right after the
    fetch returned, and an error is logged right after the call that
    threw it, with its row and text. *)
Definition allowed (p2 p1 : option event) (e : event) : bool :=
  match e with
  | EvOpenById _ _ =>
      match p1 with None => true | Some _ => false end
  | EvCreateSession _ _ _ =>
      match p1 with Some (EvOpenById _ None) => true | _ => false end
  | EvLog (Searching _) => true
  | EvGetValues name =>
      match p1 with
      | Some (EvLog (Searching name')) => bool_decide (name' = name)
      | _ => false
      end
  | EvLog (Posting _) => true
  | EvCreateRecord _ _ _ =>
      match p1 with Some (EvLog (Posting _)) => true | _ => false end
  | EvSetValue _ row _ _ _ =>
      match p2, p1 with
      | Some (EvLog (Posting k)), Some (EvCreateRecord _ _ None) =>
          bool_decide (k = row)
      | _, _ => false
      end
  | EvLog (ErrorPosting k e) =>
      match p2, p1 with
      | Some (EvLog (Posting k')), Some (EvCreateRecord _ _ (Some e')) =>
          bool_decide (k' = k) && bool_decide (e' = e)
      | _, Some (EvSetValue _ row _ _ (Some e')) =>
          bool_decide (row = k) && bool_decide (e' = e)
      | _, _ => false
      end
  end.

Fixpoint follows_protocol (p2 p1 : option event) (tr : list event) : bool :=
  match tr with
  | [] => true
  | e :: tr' => allowed p2 p1 e && follows_protocol p1 (Some e) tr'
  end.

(** How a run over the tabs [names] may leave the spreadsheet [m'] that
    it found as [m]: no tab appears or goes, no range changes its size,
    and a row is as it was or, in a tab of [names], a row below the
    header that qualified, with "Posted" written to its status. *)
Definition sheet_frame (rt : Runtime) (names : list string)
    (m m' : gmap string grid) : Prop :=
  forall name,
    match m !! name with
    | None => m' !! name = None
    | Some g =>
        exists g',
          m' !! name = Some g' /\ length g' = length g /\
          forall j,
            g' !! j = g !! j \/
            (name ∈ names /\ (1 <= j)%nat /\ qualifies rt g j = true /\
             g' !! j = mark_posted <$> g !! j)
    end.

(** The two calls a run makes before it has a session. *)
Definition auth_event (e : event) : Prop :=
  match e with
  | EvOpenById _ _ => True
  | EvCreateSession _ _ _ => True
  | _ => False
  end.

(** ** shouldPost: what qualifies a row *)

Lemma looselyEqualsReady_true (v : value) :
  looselyEqualsReady v = true <-> v = VString "Ready".
Proof.
  destruct v as [ | b | n | s | t ]; simpl.
  - split; discriminate.
  - split; discriminate.
  - destruct n; simpl; split; discriminate.
  - rewrite bool_decide_eq_true. split; [ intros -> | intros [= ->] ]; reflexivity.
  - split; discriminate.
Qed.

Lemma js_and_true_iff (a : value) (b : bool) :
  js_and a (VBoolean b) = VBoolean true <-> ToBoolean a = true /\ b = true.
Proof.
  unfold js_and. destruct (ToBoolean a) eqn:Ha.
  - split; [ intros [= ->]; auto | intros [_ ->]; reflexivity ].
  - split; [ intros ->; simpl in Ha; discriminate | intros [H _]; discriminate H ].
Qed.

Lemma date_le_true (a b : option Z) :
  date_le a b = true <-> exists d t, a = Some d /\ b = Some t /\ d <= t.
Proof.
  unfold date_le. destruct a as [x|], b as [y|].
  - rewrite Z.leb_le. split.
    + intros H. exists x, y. auto.
    + intros (d & t & [= ->] & [= ->] & H). exact H.
  - split; [ discriminate | intros (d & t & _ & [=] & _) ].
  - split; [ discriminate | intros (d & t & [=] & _) ].
  - split; [ discriminate | intros (d & t & [=] & _) ].
Qed.

(** When the content is falsy, [shouldPost] returns the content itself. *)
Lemma shouldPost_falsy_content rt (data : grid) row (r : list value) :
  data !! row = Some r ->
  ToBoolean (cell r 8) = false ->
  shouldPost rt data row = Ok (cell r 8).
Proof.
  intros Hr Hc. unfold shouldPost, js_and. rewrite Hr. simpl.
  rewrite Hc. rewrite Hc. reflexivity.
Qed.

(** When the content is truthy, [shouldPost] returns a boolean. *)
Lemma shouldPost_truthy_content rt (data : grid) row (r : list value) :
  data !! row = Some r ->
  ToBoolean (cell r 8) = true ->
  shouldPost rt data row =
    Ok (VBoolean (looselyEqualsReady (cell r 0)
                  && date_le (setHours0 rt (new_Date rt (cell r 1))) (today rt))).
Proof.
  intros Hr Hc. unfold shouldPost, js_and. rewrite Hr. simpl.
  rewrite Hc. simpl. destruct (looselyEqualsReady (cell r 0)); reflexivity.
Qed.

(** C1, as amended: [shouldPost] returns [true] exactly for a row whose
    content cell is truthy (a text that is not empty, a number other than
    0 and NaN, the boolean true, a Date), whose status cell is the string
    "Ready", and whose scheduled date, set to the start of its day, is a
    valid date not after [today]. *)
Theorem shouldPost_true_iff rt (data : grid) (row : nat) :
  shouldPost rt data row = Ok (VBoolean true) <->
  exists r d t,
    data !! row = Some r /\
    ToBoolean (cell r 8) = true /\
    cell r 0 = VString "Ready" /\
    setHours0 rt (new_Date rt (cell r 1)) = Some d /\
    today rt = Some t /\
    d <= t.
Proof.
  unfold shouldPost. destruct (data !! row) as [r|] eqn:Hr.
  - split.
    + intros [= H]. apply js_and_true_iff in H as [H Hd].
      unfold js_and in H. destruct (ToBoolean (cell r 8)) eqn:Hc; [ | congruence ].
      simpl in H. apply looselyEqualsReady_true in H.
      apply date_le_true in Hd as (d & t & Hd & Ht & Hle).
      exists r, d, t. auto 10.
    + intros (r' & d & t & [= <-] & Hc & Hs & Hd & Ht & Hle).
      f_equal. apply js_and_true_iff. split.
      * unfold js_and. rewrite Hc. simpl. apply looselyEqualsReady_true, Hs.
      * apply date_le_true. exists d, t. auto.
  - split; [ discriminate | intros (r & d & t & [=] & _) ].
Qed.

(** C1 fails as stated: the row below has a content cell that is not
    empty (it holds the number 0), the status "Ready" and a date that is
    due, and [shouldPost] does not return [true] (it returns the 0). *)
Lemma shouldPost_nonempty_content_not_enough :
  let rt := utc_runtime noon_2024_01_02 in
  let data := [header; zero_content_row] in
  ~ (shouldPost rt data 1 = Ok (VBoolean true) <->
     cell zero_content_row 8 <> VString "" /\
     cell zero_content_row 0 = VString "Ready" /\
     exists d t, setHours0 rt (new_Date rt (cell zero_content_row 1)) = Some d /\
                 today rt = Some t /\ d <= t).
Proof.
  intros rt data [_ H].
  assert (Hfalse : shouldPost rt data 1 = Ok (VBoolean true));
    [ | vm_compute in Hfalse; discriminate ].
  apply H. split; [ discriminate | ]. split; [ reflexivity | ].
  exists 1704067200000, 1704153600000.
  split; [ reflexivity | ]. split; [ reflexivity | ]. lia.
Qed.

(** C2, as amended: a row whose content cell is empty never qualifies,
    whatever its status and date: [shouldPost] returns the empty string
    itself, which is falsy. *)
Theorem shouldPost_empty_content rt (data : grid) (row : nat) (r : list value) :
  data !! row = Some r ->
  cell r 8 = VString "" ->
  shouldPost rt data row = Ok (VString "") /\ ToBoolean (VString "") = false.
Proof.
  intros Hr Hc. split; [ | reflexivity ].
  rewrite <- Hc. apply shouldPost_falsy_content; [ exact Hr | ].
  rewrite Hc. reflexivity.
Qed.

Lemma shouldPost_empty_content_witness :
  shouldPost (utc_runtime noon_2024_01_02)
             [header; make_row (VString "Ready") jan_1 (VString "")] 1
  = Ok (VString "") /\ ToBoolean (VString "") = false.
Proof.
  apply (shouldPost_empty_content _ _ 1 (make_row (VString "Ready") jan_1 (VString ""))).
  - reflexivity.
  - reflexivity.
Defined.

(** C2 fails as stated: content of one space, status "Ready", due the
    day before: [shouldPost] returns [true]. *)
Lemma shouldPost_blank_content_qualifies :
  cell blank_content_row 8 = VString " " /\
  shouldPost (utc_runtime noon_2024_01_02) [header; blank_content_row] 1
  = Ok (VBoolean true).
Proof. split; vm_compute; reflexivity. Qed.

(** C3, as amended: for a row with the status "Ready" and truthy content
    (a text that is not empty, for one), [shouldPost] returns [true] when
    the scheduled date, set to the start of its day, equals [today],
    [true] when it is before [today], and [false] when it is one day
    after [today]. *)
Theorem shouldPost_ready_by_date rt (data : grid) (row : nat) (r : list value)
    (d t : Z) :
  data !! row = Some r ->
  cell r 0 = VString "Ready" ->
  ToBoolean (cell r 8) = true ->
  setHours0 rt (new_Date rt (cell r 1)) = Some d ->
  today rt = Some t ->
  (d = t -> shouldPost rt data row = Ok (VBoolean true)) /\
  (d < t -> shouldPost rt data row = Ok (VBoolean true)) /\
  (d = t + msPerDay -> shouldPost rt data row = Ok (VBoolean false)).
Proof.
  intros Hr Hs Hc Hd Ht.
  rewrite (shouldPost_truthy_content rt data row r Hr Hc).
  rewrite Hs, Hd, Ht. simpl.
  repeat split; intros H; do 2 f_equal.
  - apply Z.leb_le. lia.
  - apply Z.leb_le. lia.
  - apply Z.leb_gt. unfold msPerDay in H. lia.
Qed.

Lemma shouldPost_ready_by_date_witness :
  let rt := utc_runtime noon_2024_01_02 in
  let data :=
    [header; make_row (VString "Ready") jan_2 (VString "Hello world")] in
  (1704153600000 = 1704153600000 -> shouldPost rt data 1 = Ok (VBoolean true)) /\
  (1704153600000 < 1704153600000 -> shouldPost rt data 1 = Ok (VBoolean true)) /\
  (1704153600000 = 1704153600000 + msPerDay ->
   shouldPost rt data 1 = Ok (VBoolean false)).
Proof.
  intros rt data.
  apply (shouldPost_ready_by_date rt data 1
           (make_row (VString "Ready") jan_2 (VString "Hello world"))
           1704153600000 1704153600000);
    reflexivity.
Defined.

(** C3 fails as stated: status "Ready", a content cell that is not empty
    (it holds the number 0) and a date that equals [today]:
    [shouldPost] does not return [true]. *)
Lemma shouldPost_zero_content_due_today :
  let rt := utc_runtime noon_2024_01_02 in
  cell zero_content_row_today 0 = VString "Ready" /\
  cell zero_content_row_today 8 <> VString "" /\
  setHours0 rt (new_Date rt (cell zero_content_row_today 1)) = today rt /\
  today rt = Some 1704153600000 /\
  shouldPost rt [header; zero_content_row_today] 1 <> Ok (VBoolean true).
Proof.
  intros rt. split; [ reflexivity | ]. split; [ discriminate | ].
  split; [ reflexivity | ]. split; [ reflexivity | ].
  vm_compute. discriminate.
Qed.



(** ** One round of the loop over the rows *)

Ltac run_js :=
  repeat (unfold Logger_log, postRow, try_catch, bind, lift, Date_now,
            fetch_createRecord, setValue, call, emit, throw, ret; simpl).

Section Row.
Variables (sv : Services) (rt : Runtime) (sheetName : string).
Variables (token account : value) (data : grid).

Local Abbreviation sent := (record_for sv account data).

Lemma rowBody_skip (w : World) (i : nat) :
  qualifies rt data i = false ->
  (exists v, shouldPost rt data i = Ok v) ->
  rowBody sv rt sheetName token account data i w = (Ok tt, w).
Proof.
  unfold qualifies. intros Hq [v Hv]. rewrite Hv in Hq.
  unfold rowBody, bind, lift. rewrite Hv, Hq. reflexivity.
Qed.

Lemma rowBody_post_throws (w : World) (i : nat) (e : string) :
  qualifies rt data i = true ->
  createRecord_throws sv token (sent w i) (trace_at_post w i) = Some e ->
  rowBody sv rt sheetName token account data i w =
    (Ok tt,
     {| tabs := tabs w;
        trace := trace w ++
          [EvLog (Posting (i + 1));
           EvCreateRecord token (sent w i) (Some e);
           EvLog (ErrorPosting (i + 1) e)] |}).
Proof.
  unfold qualifies, record_for, trace_at_post. intros Hq He.
  destruct (shouldPost rt data i) as [v|] eqn:Hv; [ | discriminate ].
  unfold rowBody, bind, lift. rewrite Hv, Hq.
  run_js. rewrite He. run_js. rewrite <- !app_assoc. reflexivity.
Qed.

Lemma rowBody_write_throws (w : World) (i : nat) (e : string) :
  qualifies rt data i = true ->
  createRecord_throws sv token (sent w i) (trace_at_post w i) = None ->
  setValue_throws sv sheetName (i + 1) 1 (VString "Posted")
    (trace_at_post w i ++ [EvCreateRecord token (sent w i) None]) = Some e ->
  rowBody sv rt sheetName token account data i w =
    (Ok tt,
     {| tabs := tabs w;
        trace := trace w ++
          [EvLog (Posting (i + 1));
           EvCreateRecord token (sent w i) None;
           EvSetValue sheetName (i + 1) 1 (VString "Posted") (Some e);
           EvLog (ErrorPosting (i + 1) e)] |}).
Proof.
  unfold qualifies, record_for, trace_at_post. intros Hq Hp He.
  destruct (shouldPost rt data i) as [v|] eqn:Hv; [ | discriminate ].
  unfold rowBody, bind, lift. rewrite Hv, Hq.
  run_js. rewrite Hp. run_js. rewrite He. run_js.
  rewrite <- !app_assoc. reflexivity.
Qed.

Lemma rowBody_posted (w : World) (i : nat) :
  qualifies rt data i = true ->
  createRecord_throws sv token (sent w i) (trace_at_post w i) = None ->
  setValue_throws sv sheetName (i + 1) 1 (VString "Posted")
    (trace_at_post w i ++ [EvCreateRecord token (sent w i) None]) = None ->
  rowBody sv rt sheetName token account data i w =
    (Ok tt,
     {| tabs := alter (write_cell (i + 1) 1 (VString "Posted")) sheetName (tabs w);
        trace := trace w ++
          [EvLog (Posting (i + 1));
           EvCreateRecord token (sent w i) None;
           EvSetValue sheetName (i + 1) 1 (VString "Posted") None] |}).
Proof.
  unfold qualifies, record_for, trace_at_post. intros Hq Hp He.
  destruct (shouldPost rt data i) as [v|] eqn:Hv; [ | discriminate ].
  unfold rowBody, bind, lift. rewrite Hv, Hq.
  run_js. rewrite Hp. run_js. rewrite He. run_js.
  rewrite <- !app_assoc. reflexivity.
Qed.

End Row.

(** ** Errors in the posting step *)

Lemma TimeClip_Some (x t : Z) : TimeClip x = Some t -> t = x.
Proof. unfold TimeClip. destruct (Z.abs x <=? maxTimeValue); congruence. Qed.

(** A later load time gives a [today] that is not earlier. *)
Lemma today_mono rt rt' (t t' : Z) :
  LocalTZA rt' = LocalTZA rt ->
  load_time rt <= load_time rt' ->
  today rt = Some t ->
  today rt' = Some t' ->
  t <= t'.
Proof.
  unfold today, setHours0. intros Hz Hle Ht Ht'.
  apply TimeClip_Some in Ht, Ht'. subst t t'. rewrite Hz.
  assert (H : (load_time rt + LocalTZA rt) / msPerDay
              <= (load_time rt' + LocalTZA rt) / msPerDay).
  { apply Z.div_le_mono; [ reflexivity | lia ]. }
  unfold msPerDay in *. lia.
Qed.

Lemma qualifies_true rt (data : grid) (i : nat) :
  qualifies rt data i = true <-> shouldPost rt data i = Ok (VBoolean true).
Proof.
  unfold qualifies. split.
  - destruct (data !! i) as [r|] eqn:Hr.
    + destruct (ToBoolean (cell r 8)) eqn:Hc.
      * rewrite (shouldPost_truthy_content rt data i r Hr Hc). simpl.
        intros ->. reflexivity.
      * rewrite (shouldPost_falsy_content rt data i r Hr Hc). congruence.
    + unfold shouldPost. rewrite Hr. discriminate.
  - intros ->. reflexivity.
Qed.

(** The condition of line 35 holds for truthy content, the status "Ready"
    and a valid date that is due. *)
Lemma qualifies_spec rt (data : grid) (i : nat) :
  qualifies rt data i = true <->
  exists r d t,
    data !! i = Some r /\
    ToBoolean (cell r 8) = true /\
    cell r 0 = VString "Ready" /\
    setHours0 rt (new_Date rt (cell r 1)) = Some d /\
    today rt = Some t /\
    d <= t.
Proof.
  rewrite qualifies_true. split.
  - intros Hsp. destruct (data !! i) as [r|] eqn:Hr.
    + destruct (ToBoolean (cell r 8)) eqn:Hc.
      * rewrite (shouldPost_truthy_content rt data i r Hr Hc) in Hsp.
        injection Hsp as Hsp. apply andb_true_iff in Hsp as [Hs Hd].
        apply looselyEqualsReady_true in Hs.
        apply date_le_true in Hd as (d & t & Hd & Ht & Hle).
        exists r, d, t. auto 10.
      * rewrite (shouldPost_falsy_content rt data i r Hr Hc) in Hsp.
        injection Hsp as Hsp. rewrite Hsp in Hc. discriminate.
    + unfold shouldPost in Hsp. rewrite Hr in Hsp. discriminate.
  - intros (r & d & t & Hr & Hc & Hs & Hd & Ht & Hle).
    rewrite (shouldPost_truthy_content rt data i r Hr Hc).
    do 2 f_equal. apply andb_true_iff. split.
    + apply looselyEqualsReady_true, Hs.
    + apply date_le_true. exists d, t. auto.
Qed.

(** A row that qualifies still does when the script is loaded later, in
    the same zone and with the same [Date.parse]. *)
Lemma qualifies_later rt rt' (data : grid) (i : nat) :
  LocalTZA rt' = LocalTZA rt ->
  Date_parse rt' = Date_parse rt ->
  load_time rt <= load_time rt' ->
  is_Some (today rt') ->
  qualifies rt data i = true ->
  qualifies rt' data i = true.
Proof.
  intros Hz Hp Hle [t' Ht'] Hq.
  apply qualifies_spec in Hq
    as (r & d & t & Hr & Hc & Hs & Hd & Ht & Hdt).
  apply qualifies_spec. exists r, d, t'.
  repeat (split; [ assumption | ]).
  assert (Hd' : setHours0 rt' (new_Date rt' (cell r 1)) = Some d).
  { rewrite <- Hd. unfold setHours0, new_Date. rewrite Hz, Hp. reflexivity. }
  split; [ exact Hd' | ]. split; [ exact Ht' | ].
  pose proof (today_mono rt rt' t t' Hz Hle Ht Ht'). lia.
Qed.

(** C4: when the fetch of [createRecord] throws for a row, the round of
    the loop returns normally (the error is caught), what it adds to the
    trace ends with the log entry made of the row's number in the sheet,
    counted from 1, and the text of the error, the spreadsheet is as it
    was, and the loop goes on with the next row. *)
Theorem posting_error_is_caught sv rt (sheetName : string) (token account : value)
    (data : grid) (n i : nat) (w : World) (e : string) :
  qualifies rt data i = true ->
  createRecord_throws sv token (record_for sv account data w i)
    (trace_at_post w i) = Some e ->
  let w' :=
    {| tabs := tabs w;
       trace := trace w ++
         [EvLog (Posting (i + 1));
          EvCreateRecord token (record_for sv account data w i) (Some e);
          EvLog (ErrorPosting (i + 1) e)] |} in
  rowBody sv rt sheetName token account data i w = (Ok tt, w') /\
  render (ErrorPosting (i + 1) e)
    = "Error posting row " +:+ pretty (i + 1)%nat +:+ ": " +:+ e /\
  tabs w' = tabs w /\
  rowLoop sv rt sheetName token account data (S n) i w
    = rowLoop sv rt sheetName token account data n (S i) w'.
Proof.
  intros Hq He w'.
  pose proof (rowBody_post_throws sv rt sheetName token account data w i e Hq He)
    as Hbody.
  split; [ exact Hbody | ]. split; [ reflexivity | ]. split; [ reflexivity | ].
  simpl. unfold bind at 1. rewrite Hbody. reflexivity.
Qed.

Lemma posting_error_is_caught_witness :
  let sv := refusing_posts "jwt" "did:plc:1" 0 in
  let rt := utc_runtime noon_2024_01_02 in
  let data := [header; hello_row] in
  let r := record_for sv (VString "did:plc:1") data sample_world 1 in
  let w' :=
    {| tabs := tabs sample_world;
       trace := trace sample_world ++
         [EvLog (Posting 2);
          EvCreateRecord (VString "jwt") r (Some "Exception: Request failed");
          EvLog (ErrorPosting 2 "Exception: Request failed")] |} in
  rowBody sv rt "Peak Share" (VString "jwt") (VString "did:plc:1") data 1 sample_world
    = (Ok tt, w') /\
  render (ErrorPosting 2 "Exception: Request failed")
    = "Error posting row " +:+ pretty 2%nat +:+ ": " +:+ "Exception: Request failed" /\
  tabs w' = tabs sample_world /\
  rowLoop sv rt "Peak Share" (VString "jwt") (VString "did:plc:1") data 1 1 sample_world
    = rowLoop sv rt "Peak Share" (VString "jwt") (VString "did:plc:1") data 0 2 w'.
Proof.
  intros sv rt data r w'.
  apply (posting_error_is_caught sv rt "Peak Share" (VString "jwt")
           (VString "did:plc:1") data 0 1 sample_world "Exception: Request failed").
  - reflexivity.
  - reflexivity.
Defined.

(** C9: when the fetch of [createRecord] returns for a row and the write
    of "Posted" throws, the round of the loop returns normally and logs
    the error as it does for a failed post, the spreadsheet is as it was
    (the status read was "Ready"), and the loop goes on with the next
    row.  The post was submitted, and the row as it stands qualifies
    again in a later run. *)
Theorem write_error_is_caught sv rt (sheetName : string) (token account : value)
    (data : grid) (n i : nat) (w : World) (e : string) :
  qualifies rt data i = true ->
  createRecord_throws sv token (record_for sv account data w i)
    (trace_at_post w i) = None ->
  setValue_throws sv sheetName (i + 1) 1 (VString "Posted")
    (trace_at_post w i ++ [EvCreateRecord token (record_for sv account data w i) None])
    = Some e ->
  let w' :=
    {| tabs := tabs w;
       trace := trace w ++
         [EvLog (Posting (i + 1));
          EvCreateRecord token (record_for sv account data w i) None;
          EvSetValue sheetName (i + 1) 1 (VString "Posted") (Some e);
          EvLog (ErrorPosting (i + 1) e)] |} in
  rowBody sv rt sheetName token account data i w = (Ok tt, w') /\
  tabs w' = tabs w /\
  cell (default [] (data !! i)) 0 = VString "Ready" /\
  rowLoop sv rt sheetName token account data (S n) i w
    = rowLoop sv rt sheetName token account data n (S i) w' /\
  forall rt',
    LocalTZA rt' = LocalTZA rt ->
    Date_parse rt' = Date_parse rt ->
    load_time rt <= load_time rt' ->
    is_Some (today rt') ->
    shouldPost rt' data i = Ok (VBoolean true).
Proof.
  intros Hq Hp He w'.
  pose proof (rowBody_write_throws sv rt sheetName token account data w i e Hq Hp He)
    as Hbody.
  split; [ exact Hbody | ]. split; [ reflexivity | ]. split.
  { apply qualifies_spec in Hq
      as (r & d & t & Hr & _ & Hs & _). rewrite Hr. exact Hs. }
  split.
  { simpl. unfold bind at 1. rewrite Hbody. reflexivity. }
  intros rt' Hz Hparse Hle Ht. apply qualifies_true.
  exact (qualifies_later rt rt' data i Hz Hparse Hle Ht Hq).
Qed.

Lemma write_error_is_caught_witness :
  let sv := refusing_writes "jwt" "did:plc:1" 0 in
  let rt := utc_runtime noon_2024_01_02 in
  let data := [header; hello_row] in
  let r := record_for sv (VString "did:plc:1") data sample_world 1 in
  let w' :=
    {| tabs := tabs sample_world;
       trace := trace sample_world ++
         [EvLog (Posting 2);
          EvCreateRecord (VString "jwt") r None;
          EvSetValue "Peak Share" 2 1 (VString "Posted")
            (Some "Exception: Service error");
          EvLog (ErrorPosting 2 "Exception: Service error")] |} in
  rowBody sv rt "Peak Share" (VString "jwt") (VString "did:plc:1") data 1 sample_world
    = (Ok tt, w') /\
  tabs w' = tabs sample_world /\
  cell (default [] (data !! 1%nat)) 0 = VString "Ready" /\
  rowLoop sv rt "Peak Share" (VString "jwt") (VString "did:plc:1") data 1 1 sample_world
    = rowLoop sv rt "Peak Share" (VString "jwt") (VString "did:plc:1") data 0 2 w' /\
  forall rt',
    LocalTZA rt' = LocalTZA rt ->
    Date_parse rt' = Date_parse rt ->
    load_time rt <= load_time rt' ->
    is_Some (today rt') ->
    shouldPost rt' data 1 = Ok (VBoolean true).
Proof.
  intros sv rt data r w'.
  apply (write_error_is_caught sv rt "Peak Share" (VString "jwt")
           (VString "did:plc:1") data 0 1 sample_world "Exception: Service error").
  - reflexivity.
  - reflexivity.
  - reflexivity.
Defined.

(** ** Authentication *)

(** C7: when the spreadsheet was opened and the fetch of [createSession]
    throws, or its response does not parse, the run ends with that error
    (nothing catches it); the spreadsheet is untouched and after the
    fetch no call was made: no range read, no post, no write. *)
Theorem authentication_failure_aborts sv rt (w : World) (e : string) :
  openById_throws sv SHEET_ID (trace w) = None ->
  createSession_response sv BSKY_HANDLE APP_PASSWORD
      (trace w ++ [EvOpenById SHEET_ID None]) = Throw e
  \/ (exists body,
        createSession_response sv BSKY_HANDLE APP_PASSWORD
          (trace w ++ [EvOpenById SHEET_ID None]) = Ok body /\
        JSON_parse sv body = Throw e) ->
  exists thrown,
    postToBluesky sv rt w =
      (Throw e,
       {| tabs := tabs w;
          trace := trace w ++
            [EvOpenById SHEET_ID None;
             EvCreateSession BSKY_HANDLE APP_PASSWORD thrown] |}) /\
    visits (run_events sv rt w) = [].
Proof.
  intros Hopen Hauth.
  assert (Hdrop : forall (tr new : list event), drop (length tr) (tr ++ new) = new).
  { intros tr new. rewrite drop_app_length. reflexivity. }
  unfold run_events, postToBluesky, SpreadsheetApp_openById, fetch_createSession,
    parse_session.
  destruct Hauth as [Hfetch | (body & Hfetch & Hparse)].
  - exists (Some e). run_js. rewrite Hopen. run_js. rewrite Hfetch. run_js.
    rewrite <- !app_assoc. split; [ reflexivity | ].
    simpl. rewrite Hdrop. reflexivity.
  - exists None. run_js. rewrite Hopen. run_js. rewrite Hfetch. run_js.
    rewrite Hparse. rewrite <- !app_assoc. split; [ reflexivity | ].
    simpl. rewrite Hdrop. reflexivity.
Qed.

Lemma authentication_failure_aborts_witness :
  exists thrown,
    postToBluesky refusing_sessions (utc_runtime noon_2024_01_02) sample_world =
      (Throw "Exception: Unauthorized",
       {| tabs := tabs sample_world;
          trace := trace sample_world ++
            [EvOpenById SHEET_ID None;
             EvCreateSession BSKY_HANDLE APP_PASSWORD thrown] |}) /\
    visits (run_events refusing_sessions (utc_runtime noon_2024_01_02) sample_world)
      = [].
Proof.
  apply (authentication_failure_aborts refusing_sessions
           (utc_runtime noon_2024_01_02) sample_world "Exception: Unauthorized").
  - reflexivity.
  - left. reflexivity.
Defined.

Local Close Scope Z_scope.

(** ** Writing a cell *)

Lemma update_at_length {A} (pad : A) (f : A -> A) (n : nat) (l : list A) :
  n < length l -> length (update_at pad f n l) = length l.
Proof.
  revert l. induction n as [|n IH]; intros [|x l] H; simpl in *; try lia.
  f_equal. apply IH. lia.
Qed.

Lemma update_at_lookup_eq {A} (pad : A) (f : A -> A) (n : nat) (l : list A) :
  n < length l -> update_at pad f n l !! n = f <$> l !! n.
Proof.
  revert l. induction n as [|n IH]; intros [|x l] H; simpl in *; try lia.
  - reflexivity.
  - apply IH. lia.
Qed.

Lemma update_at_lookup_ne {A} (pad : A) (f : A -> A) (n k : nat) (l : list A) :
  n < length l -> k <> n -> update_at pad f n l !! k = l !! k.
Proof.
  revert k l. induction n as [|n IH]; intros [|k] [|x l] H Hne; simpl in *;
    try lia; try reflexivity.
  apply IH; lia.
Qed.

Lemma write_cell_row (i : nat) (v : value) (g : grid) :
  write_cell (i + 1) 1 v g
  = update_at [] (update_at (VString "") (fun _ => v) 0) i g.
Proof. unfold write_cell. replace (i + 1 - 1) with i by lia. reflexivity. Qed.

Lemma cell_mark_posted_status (r : list value) :
  cell (mark_posted r) 0 = VString "Posted".
Proof. destruct r; reflexivity. Qed.

Lemma cell_mark_posted_other (r : list value) (k : nat) :
  cell (mark_posted r) (S k) = cell r (S k).
Proof. destruct r; reflexivity. Qed.

(** A row marked "Posted" does not qualify, in any runtime. *)
Lemma marked_row_is_skipped rt rt' (data data' : grid) (i : nat) (r : list value) :
  data !! i = Some r ->
  data' !! i = Some (mark_posted r) ->
  qualifies rt data i = true ->
  shouldPost rt' data' i = Ok (VBoolean false).
Proof.
  intros Hr Hr' Hq.
  apply qualifies_spec in Hq
    as (r0 & d & t & Hr0 & Hc & _).
  rewrite Hr in Hr0. injection Hr0 as <-.
  rewrite (shouldPost_truthy_content rt' data' i (mark_posted r) Hr').
  - rewrite cell_mark_posted_status. reflexivity.
  - rewrite cell_mark_posted_other. exact Hc.
Qed.

(** ** The loop over the rows *)

Section Rows.
Variables (sv : Services) (rt : Runtime) (sheetName : string).
Variables (token account : value) (data : grid).

Lemma rowBody_summary (w : World) (g : grid) (i : nat) :
  i < length data ->
  tabs w !! sheetName = Some g ->
  length g = length data ->
  exists w1 new g1,
    rowBody sv rt sheetName token account data i w = (Ok tt, w1) /\
    moved sheetName w w1 new g g1 /\
    visits new = spec_row_visits rt data i /\
    (forall j, j <> i -> g1 !! j = g !! j) /\
    (no_error new -> qualifies rt data i = true ->
     g1 !! i = mark_posted <$> g !! i).
Proof.
  intros Hi Hg Hlen. unfold moved, spec_row_visits.
  destruct (lookup_lt_is_Some_2 data i Hi) as [r Hr].
  destruct (qualifies rt data i) eqn:Hq.
  - destruct (createRecord_throws sv token (record_for sv account data w i)
                (trace_at_post w i)) as [e|] eqn:Hp.
    + eexists _, _, g. split; [ apply rowBody_post_throws; eassumption | ].
      simpl. repeat split; auto.
      intros Hne _. unfold no_error in Hne.
      rewrite !Forall_cons in Hne. simpl in Hne.
      destruct Hne as (_ & Hne & _). discriminate.
    + destruct (setValue_throws sv sheetName (i + 1) 1 (VString "Posted")
                  (trace_at_post w i ++
                   [EvCreateRecord token (record_for sv account data w i) None]))
        as [e|] eqn:Hs.
      * eexists _, _, g. split; [ apply rowBody_write_throws; eassumption | ].
        simpl. repeat split; auto.
        intros Hne _. unfold no_error in Hne.
        rewrite !Forall_cons in Hne. simpl in Hne.
        destruct Hne as (_ & _ & Hne & _). discriminate.
      * eexists _, _, (write_cell (i + 1) 1 (VString "Posted") g).
        split; [ apply rowBody_posted; eassumption | ].
        simpl. rewrite write_cell_row.
        assert (Hig : i < length g) by lia.
        repeat split.
        -- rewrite lookup_alter_eq, Hg. simpl. rewrite write_cell_row. reflexivity.
        -- intros other Hne. apply lookup_alter_ne. congruence.
        -- apply update_at_length. exact Hig.
        -- intros j Hj. apply update_at_lookup_ne; assumption.
        -- intros _ _. apply update_at_lookup_eq. exact Hig.
  - exists w, [], g. split.
    + apply rowBody_skip; [ exact Hq | ].
      unfold shouldPost. rewrite Hr. eauto.
    + repeat split; auto.
      * rewrite app_nil_r. reflexivity.
      * intros _ [=].
Qed.

Lemma rowLoop_summary (n : nat) : forall (i : nat) (w : World) (g : grid),
  (forall j, i <= j < i + n -> j < length data) ->
  tabs w !! sheetName = Some g ->
  length g = length data ->
  exists w' new g',
    rowLoop sv rt sheetName token account data n i w = (Ok tt, w') /\
    moved sheetName w w' new g g' /\
    visits new = seq i n ≫= spec_row_visits rt data /\
    (forall j, j < i -> g' !! j = g !! j) /\
    (no_error new ->
     forall j, i <= j < i + n -> qualifies rt data j = true ->
     g' !! j = mark_posted <$> g !! j).
Proof.
  induction n as [|n IH]; intros i w g Hrange Hg Hlen.
  - exists w, [], g. unfold moved. simpl. rewrite app_nil_r.
    repeat split; auto. intros _ j Hj. lia.
  - destruct (rowBody_summary w g i) as
      (w1 & new1 & g1 & Hbody & (Htr1 & Hg1 & Hother1 & Hlen1) & Hv1 & Hrest1 & Hmark1);
      [ apply Hrange; lia | exact Hg | exact Hlen | ].
    destruct (IH (S i) w1 g1) as
      (w' & new2 & g' & Hloop & (Htr2 & Hg2 & Hother2 & Hlen2) & Hv2 & Hrest2 & Hmark2);
      [ intros j Hj; apply Hrange; lia | exact Hg1 | congruence | ].
    exists w', (new1 ++ new2), g'. split.
    { simpl. unfold bind at 1. rewrite Hbody. exact Hloop. }
    split.
    { unfold moved. split; [ rewrite Htr2, Htr1, app_assoc; reflexivity | ].
      split; [ exact Hg2 | ]. split; [ | congruence ].
      intros other Hne. rewrite Hother2, Hother1; auto. }
    split.
    { unfold visits in *. rewrite bind_app, Hv1, Hv2. reflexivity. }
    split.
    { intros j Hj. rewrite Hrest2, Hrest1; [ reflexivity | lia | lia ]. }
    intros Hne j Hj Hq. unfold no_error in Hne. apply Forall_app in Hne as [Hne1 Hne2].
    destruct (decide (j = i)) as [-> | Hji].
    + rewrite Hrest2; [ | lia ]. apply Hmark1; assumption.
    + rewrite Hmark2; [ | exact Hne2 | lia | exact Hq ].
      rewrite Hrest1; [ reflexivity | exact Hji ].
Qed.


End Rows.

(** ** The loop over the tabs *)

Section Tabs.
Variables (sv : Services) (rt : Runtime) (token account : value).

Lemma sheetBody_missing (sheetName : string) (w : World) :
  tabs w !! sheetName = None ->
  exists e,
    sheetBody sv rt token account sheetName w =
      (Throw e, {| tabs := tabs w;
                   trace := trace w ++ [EvLog (Searching sheetName)] |}).
Proof.
  intros Hg. eexists. unfold sheetBody, getValues. run_js. rewrite Hg.
  reflexivity.
Qed.

Lemma sheetBody_summary (sheetName : string) (w : World) (g : grid) :
  tabs w !! sheetName = Some g ->
  exists w' new g',
    sheetBody sv rt token account sheetName w = (Ok tt, w') /\
    moved sheetName w w' new g g' /\
    visits new = spec_tab_visits rt g sheetName /\
    (no_error new ->
     forall j, 1 <= j < length g -> qualifies rt g j = true ->
     g' !! j = mark_posted <$> g !! j).
Proof.
  intros Hg.
  destruct (rowLoop_summary sv rt sheetName token account g (length g - 1) 1
              {| tabs := tabs w;
                 trace := trace w ++
                   [EvLog (Searching sheetName); EvGetValues sheetName] |} g)
    as (w' & new & g' & Hloop & (Htr & Hg' & Hother & Hlen) & Hv & _ & Hmark);
    [ intros j Hj; lia | exact Hg | reflexivity | ].
  exists w', ([EvLog (Searching sheetName); EvGetValues sheetName] ++ new), g'.
  split.
  { unfold sheetBody, getValues. run_js. rewrite Hg. run_js.
    rewrite <- app_assoc. exact Hloop. }
  split.
  { unfold moved. simpl in *. rewrite Htr, <- app_assoc. auto. }
  split.
  { unfold visits in *. rewrite bind_app, Hv. reflexivity. }
  intros Hne j Hj Hq. apply Hmark.
  - unfold no_error in *. apply Forall_app in Hne as [_ Hne]. exact Hne.
  - lia.
  - exact Hq.
Qed.

Lemma spec_visits_ext (m1 m2 : gmap string grid) (names : list string) :
  (forall name, name ∈ names -> m1 !! name = m2 !! name) ->
  spec_visits rt m1 names = spec_visits rt m2 names.
Proof.
  unfold spec_visits. induction names as [|name names IH]; intros H.
  - reflexivity.
  - rewrite !bind_cons, IH, (H name).
    + reflexivity.
    + apply list_elem_of_here.
    + intros name' Hin. apply H. apply list_elem_of_further, Hin.
Qed.

Lemma sheetLoop_summary (names : list string) : forall w : World,
  NoDup names ->
  exists r w' new k,
    sheetLoop sv rt token account names w = (r, w') /\
    trace w' = trace w ++ new /\
    visits new = spec_visits rt (tabs w) (take k names) /\
    (r = Ok tt -> k = length names) /\
    ((forall name, name ∈ names -> is_Some (tabs w !! name)) -> r = Ok tt) /\
    (forall other, other ∉ names -> tabs w' !! other = tabs w !! other) /\
    (r = Ok tt -> no_error new -> marks rt w w' names).
Proof.
  induction names as [|name names IH]; intros w Hnd.
  - exists (Ok tt), w, [], 0. simpl. rewrite app_nil_r.
    repeat split; auto. intros _ _ name g Hin. inversion Hin.
  - apply NoDup_cons in Hnd as [Hfresh Hnd].
    destruct (tabs w !! name) as [g|] eqn:Hg.
    + destruct (sheetBody_summary name w g Hg)
        as (w1 & new1 & g1 & Hbody & (Htr1 & Hg1 & Hother1 & Hlen1) & Hv1 & Hmark1).
      destruct (IH w1 Hnd)
        as (r & w' & new2 & k & Hloop & Htr2 & Hv2 & Hk & Hok & Hother2 & Hmark2).
      assert (Hsame : forall name', name' ∈ names ->
                                    tabs w1 !! name' = tabs w !! name').
      { intros name' Hin. apply Hother1. intros ->. contradiction. }
      exists r, w', (new1 ++ new2), (S k). split.
      { simpl. unfold bind at 1. rewrite Hbody. exact Hloop. }
      split; [ rewrite Htr2, Htr1, app_assoc; reflexivity | ].
      split.
      { unfold visits in *. rewrite bind_app, Hv1, Hv2. simpl.
        rewrite Hg. simpl. f_equal. f_equal.
        apply spec_visits_ext. intros name' Hin. apply Hsame.
        eapply subseteq_take, Hin. }
      split; [ intros Hr; simpl; f_equal; auto | ].
      split.
      { intros Hall. apply Hok. intros name' Hin. rewrite Hsame by exact Hin.
        apply Hall, list_elem_of_further, Hin. }
      split.
      { intros other Hnot. apply not_elem_of_cons in Hnot as [Hne Hnot].
        rewrite Hother2 by exact Hnot. apply Hother1, Hne. }
      intros Hr Hne name0 g0 Hin Hg0.
      unfold no_error in Hne. apply Forall_app in Hne as [Hne1 Hne2].
      apply elem_of_cons in Hin as [-> | Hin].
      * rewrite Hg in Hg0. injection Hg0 as <-.
        exists g1. split; [ rewrite Hother2 by exact Hfresh; exact Hg1 | ].
        apply Hmark1, Hne1.
      * apply (Hmark2 Hr Hne2 name0 g0 Hin). rewrite Hsame by exact Hin. exact Hg0.
    + destruct (sheetBody_missing name w Hg) as [e Hbody].
      exists (Throw e),
        {| tabs := tabs w; trace := trace w ++ [EvLog (Searching name)] |},
        [EvLog (Searching name)], 0.
      split.
      { simpl. unfold bind at 1. rewrite Hbody. reflexivity. }
      repeat split; auto; try discriminate.
      intros Hall. destruct (Hall name) as [g Hg']; [ apply list_elem_of_here | ].
      congruence.
Qed.

End Tabs.

(** ** The run *)

Lemma SHEET_NAMES_NoDup : NoDup SHEET_NAMES.
Proof.
  unfold SHEET_NAMES. apply NoDup_cons. split.
  - intros Hin. apply list_elem_of_singleton in Hin. discriminate.
  - apply NoDup_singleton.
Qed.

Lemma run_summary sv rt (w : World) :
  exists r w' new k,
    postToBluesky sv rt w = (r, w') /\
    trace w' = trace w ++ new /\
    visits new = spec_visits rt (tabs w) (take k SHEET_NAMES) /\
    (r = Ok tt -> k = length SHEET_NAMES) /\
    (signed_in sv w ->
     (forall name, name ∈ SHEET_NAMES -> is_Some (tabs w !! name)) ->
     r = Ok tt) /\
    (r = Ok tt -> no_error new -> marks rt w w' SHEET_NAMES).
Proof.
  unfold postToBluesky, SpreadsheetApp_openById, fetch_createSession, parse_session,
    signed_in.
  destruct (openById_throws sv SHEET_ID (trace w)) as [e|] eqn:Hopen.
  { exists (Throw e), {| tabs := tabs w;
                         trace := trace w ++ [EvOpenById SHEET_ID (Some e)] |},
      [EvOpenById SHEET_ID (Some e)], 0.
    run_js. rewrite Hopen. run_js.
    repeat split; auto; try discriminate. intros [[=] _]. }
  destruct (createSession_response sv BSKY_HANDLE APP_PASSWORD
              (trace w ++ [EvOpenById SHEET_ID None])) as [body|e] eqn:Hfetch.
  2: { exists (Throw e),
         {| tabs := tabs w;
            trace := trace w ++ [EvOpenById SHEET_ID None;
                                 EvCreateSession BSKY_HANDLE APP_PASSWORD (Some e)] |},
         [EvOpenById SHEET_ID None;
          EvCreateSession BSKY_HANDLE APP_PASSWORD (Some e)], 0.
       run_js. rewrite Hopen. run_js. rewrite Hfetch. run_js.
       rewrite <- app_assoc.
       repeat split; auto; try discriminate.
       intros [_ (body & s & [=] & _)]. }
  pose (w2 := {| tabs := tabs w;
                 trace := trace w ++ [EvOpenById SHEET_ID None;
                            EvCreateSession BSKY_HANDLE APP_PASSWORD None] |}).
  destruct (JSON_parse sv body) as [[s|]|e] eqn:Hparse.
  - destruct (sheetLoop_summary sv rt (accessJwt s) (did s) SHEET_NAMES w2
                SHEET_NAMES_NoDup)
      as (r & w' & new & k & Hloop & Htr & Hv & Hk & Hok & _ & Hmark).
    exists r, w',
      ([EvOpenById SHEET_ID None;
        EvCreateSession BSKY_HANDLE APP_PASSWORD None] ++ new), k.
    split.
    { run_js. rewrite Hopen. run_js. rewrite Hfetch. run_js. rewrite Hparse.
      rewrite <- app_assoc. exact Hloop. }
    split; [ rewrite Htr; simpl; rewrite <- app_assoc; reflexivity | ].
    split; [ unfold visits in *; rewrite bind_app, Hv; reflexivity | ].
    split; [ exact Hk | ].
    split; [ intros _ Hall; apply Hok, Hall | ].
    intros Hr Hne. apply Hmark; [ exact Hr | ].
    unfold no_error in *. apply Forall_app in Hne as [_ Hne]. exact Hne.
  - eexists (Throw _), w2,
      [EvOpenById SHEET_ID None; EvCreateSession BSKY_HANDLE APP_PASSWORD None], 0.
    split.
    { run_js. rewrite Hopen. run_js. rewrite Hfetch. run_js. rewrite Hparse.
      rewrite <- app_assoc. reflexivity. }
    repeat split; auto; try discriminate.
    intros [_ (body' & s & Hb & Hs)]. congruence.
  - exists (Throw e), w2,
      [EvOpenById SHEET_ID None; EvCreateSession BSKY_HANDLE APP_PASSWORD None], 0.
    split.
    { run_js. rewrite Hopen. run_js. rewrite Hfetch. run_js. rewrite Hparse.
      rewrite <- app_assoc. reflexivity. }
    repeat split; auto; try discriminate.
    intros [_ (body' & s & Hb & Hs)]. congruence.
Qed.

Lemma run_events_new sv rt (w w' : World) (r : outcome unit) (new : list event) :
  postToBluesky sv rt w = (r, w') ->
  trace w' = trace w ++ new ->
  run_events sv rt w = new.
Proof.
  intros Hrun Htr. unfold run_events. rewrite Hrun. simpl.
  rewrite Htr. apply drop_app_length.
Qed.

(** C8: in every run, what the trace shows of reads, of entries into the
    posting step and of submissions is what the control flow of the
    specification gives on the spreadsheet as the run found it, for the
    tabs the run got to, in the order of the list: one read of the tab,
    then the rows below the header from top to bottom, the posting step
    for those on which [shouldPost] is truthy.  A run that returns got to
    all tabs, and a run returns once it has a session and every tab
    exists. *)
Theorem dispatch_order sv rt (w : World) :
  exists k,
    visits (run_events sv rt w) = spec_visits rt (tabs w) (take k SHEET_NAMES) /\
    (fst (postToBluesky sv rt w) = Ok tt -> k = length SHEET_NAMES) /\
    (signed_in sv w ->
     (forall name, name ∈ SHEET_NAMES -> is_Some (tabs w !! name)) ->
     fst (postToBluesky sv rt w) = Ok tt).
Proof.
  destruct (run_summary sv rt w) as (r & w' & new & k & Hrun & Htr & Hv & Hk & Hok & _).
  exists k. rewrite (run_events_new sv rt w w' r new Hrun Htr), Hrun. simpl.
  auto.
Qed.

(** The order on a spreadsheet with several rows, and with every fetch of
    [createRecord] throwing: the same rows are entered, in the same
    order. *)
Example dispatch_order_busy :
  visits (run_events (obliging "jwt" "did:plc:1" 0)
            (utc_runtime noon_2024_01_02) busy_world)
  = [Read "Peak Share";
     Announce 2; Submit (VString "Hello world");
     Announce 5; Submit (VString "Second");
     Read "Peak Generation";
     Announce 2; Submit (VString "Third")]
  /\ visits (run_events (refusing_posts "jwt" "did:plc:1" 0)
               (utc_runtime noon_2024_01_02) busy_world)
     = visits (run_events (obliging "jwt" "did:plc:1" 0)
                 (utc_runtime noon_2024_01_02) busy_world).
Proof. split; vm_compute; reflexivity. Qed.

(** ** Two runs *)

Lemma posted_rows_of_rows rt (data : grid) (tab : string) (l : list nat) :
  forall (row : nat) (rest : list visit),
  exists row',
    posted_rows tab row ((l ≫= spec_row_visits rt data) ++ rest)
    = ((fun i => (tab, i + 1)) <$> filter (fun i => qualifies rt data i = true) l)
      ++ posted_rows tab row' rest.
Proof.
  induction l as [|i l IH]; intros row rest.
  - exists row. reflexivity.
  - rewrite bind_cons. unfold spec_row_visits at 1.
    destruct (qualifies rt data i) eqn:Hq.
    + rewrite filter_cons_True by exact Hq.
      destruct (IH (i + 1) rest) as [row' Hrow']. exists row'.
      simpl. f_equal. exact Hrow'.
    + rewrite filter_cons_False by congruence.
      destruct (IH row rest) as [row' Hrow']. exists row'. exact Hrow'.
Qed.

Lemma posted_rows_of_spec rt (sheets : gmap string grid) (names : list string) :
  forall (tab : string) (row : nat),
    posted_rows tab row (spec_visits rt sheets names)
    = spec_posted_rows rt sheets names.
Proof.
  unfold spec_visits, spec_posted_rows.
  induction names as [|name names IH]; intros tab row; [ reflexivity | ].
  rewrite !bind_cons. unfold spec_tab_visits at 1. simpl.
  destruct (posted_rows_of_rows rt (default [] (sheets !! name)) name
              (seq 1 (length (default [] (sheets !! name)) - 1)) row
              (names ≫= (fun name0 =>
                 spec_tab_visits rt (default [] (sheets !! name0)) name0)))
    as [row' Hrow'].
  rewrite Hrow'. f_equal. apply IH.
Qed.

Lemma elem_of_spec_posted_rows rt (sheets : gmap string grid) (names : list string)
    (name : string) (k : nat) :
  (name, k) ∈ spec_posted_rows rt sheets names <->
  name ∈ names /\
  exists i, k = i + 1 /\ 1 <= i < length (default [] (sheets !! name)) /\
            qualifies rt (default [] (sheets !! name)) i = true.
Proof.
  unfold spec_posted_rows. rewrite list_elem_of_bind. split.
  - intros (name' & Hin & Hname). simpl in Hin.
    apply list_elem_of_fmap in Hin as (i & [= -> ->] & Hi).
    apply list_elem_of_filter in Hi as [Hq Hi]. apply elem_of_seq in Hi.
    split; [ exact Hname | ]. exists i. split; [ reflexivity | ].
    split; [ lia | exact Hq ].
  - intros (Hname & i & -> & Hi & Hq). exists name. split; [ | exact Hname ].
    simpl. apply list_elem_of_fmap. exists i. split; [ reflexivity | ].
    apply list_elem_of_filter. split; [ exact Hq | ]. apply elem_of_seq. lia.
Qed.

Lemma NoDup_spec_posted_rows rt (sheets : gmap string grid) (names : list string) :
  NoDup names -> NoDup (spec_posted_rows rt sheets names).
Proof.
  intros Hnd. unfold spec_posted_rows. apply NoDup_bind; [ | | exact Hnd ].
  - intros x1 x2 [name k] _ _ H1 H2. simpl in H1, H2.
    apply list_elem_of_fmap in H1 as (i1 & [= -> ->] & _).
    apply list_elem_of_fmap in H2 as (i2 & [= -> _] & _). reflexivity.
  - intros name _. simpl.
    assert (Hinj : Inj (=) (=) (fun i : nat => (name, i + 1))).
    { intros a b [= H]. lia. }
    apply (NoDup_fmap_2 _). apply NoDup_filter, NoDup_seq.
Qed.

(** A row that was posted in a run without error is marked, and no later
    run takes it. *)
Lemma posted_then_skipped rt (w w' : World) (names : list string) (name : string)
    (g : grid) (i : nat) :
  marks rt w w' names ->
  name ∈ names ->
  tabs w !! name = Some g ->
  1 <= i < length g ->
  qualifies rt g i = true ->
  exists g' r,
    tabs w' !! name = Some g' /\ g' !! i = Some r /\
    cell r 0 = VString "Posted" /\
    forall rt', shouldPost rt' g' i = Ok (VBoolean false).
Proof.
  intros Hmarks Hname Hg Hi Hq.
  destruct (Hmarks name g Hname Hg) as (g' & Hg' & Hrows).
  destruct (lookup_lt_is_Some_2 g i) as [r Hr]; [ lia | ].
  pose proof (Hrows i Hi Hq) as Hrow. rewrite Hr in Hrow. simpl in Hrow.
  exists g', (mark_posted r). split; [ exact Hg' | ]. split; [ exact Hrow | ].
  split; [ apply cell_mark_posted_status | ].
  intros rt'. exact (marked_row_is_skipped rt rt' g g' i r Hr Hrow Hq).
Qed.

(** C5: after a first run that returns and in which no call threw, a
    second run on the spreadsheet as the first left it: over the two runs
    no row is submitted twice, and every row that qualified in the first
    run was submitted in it, has the status "Posted" after it, makes
    [shouldPost] return [false] in the second run, and is not submitted
    in the second run. *)
Theorem two_runs_post_once sv1 rt1 sv2 rt2 (w0 w1 : World) :
  postToBluesky sv1 rt1 w0 = (Ok tt, w1) ->
  no_error (run_events sv1 rt1 w0) ->
  let posted1 := posted_rows "" 0 (visits (run_events sv1 rt1 w0)) in
  let posted2 := posted_rows "" 0 (visits (run_events sv2 rt2 w1)) in
  NoDup (posted1 ++ posted2) /\
  forall name g i,
    name ∈ SHEET_NAMES ->
    tabs w0 !! name = Some g ->
    1 <= i < length g ->
    qualifies rt1 g i = true ->
    ((name, i + 1) ∈ posted1) /\
    ((name, i + 1) ∉ posted2) /\
    exists g1 r,
      tabs w1 !! name = Some g1 /\ g1 !! i = Some r /\
      cell r 0 = VString "Posted" /\
      shouldPost rt2 g1 i = Ok (VBoolean false).
Proof.
  intros Hrun1 Hclean posted1 posted2.
  destruct (run_summary sv1 rt1 w0)
    as (r1 & w1' & new1 & k1 & Hrun1' & Htr1 & Hv1 & Hk1 & _ & Hmarks).
  rewrite Hrun1 in Hrun1'. injection Hrun1' as <- <-.
  pose proof (run_events_new sv1 rt1 w0 w1 (Ok tt) new1 Hrun1 Htr1) as Hnew1.
  rewrite Hnew1 in Hclean. specialize (Hmarks eq_refl Hclean).
  specialize (Hk1 eq_refl). subst k1.
  destruct (run_summary sv2 rt2 w1)
    as (r2 & w2 & new2 & k2 & Hrun2 & Htr2 & Hv2 & _).
  pose proof (run_events_new sv2 rt2 w1 w2 r2 new2 Hrun2 Htr2) as Hnew2.
  assert (H1 : posted1 = spec_posted_rows rt1 (tabs w0) SHEET_NAMES).
  { unfold posted1. rewrite Hnew1, Hv1, posted_rows_of_spec. reflexivity. }
  assert (H2 : posted2 = spec_posted_rows rt2 (tabs w1) (take k2 SHEET_NAMES)).
  { unfold posted2. rewrite Hnew2, Hv2, posted_rows_of_spec. reflexivity. }
  assert (Hapart : forall name i g,
            name ∈ SHEET_NAMES -> tabs w0 !! name = Some g ->
            1 <= i < length g -> qualifies rt1 g i = true ->
            (name, i + 1) ∉ posted2).
  { intros name i g Hname Hg Hi Hq Hin. rewrite H2 in Hin.
    apply elem_of_spec_posted_rows in Hin as (_ & i' & Heq & _ & Hq').
    assert (i' = i) by lia. subst i'.
    destruct (posted_then_skipped rt1 w0 w1 SHEET_NAMES name g i Hmarks Hname Hg Hi Hq)
      as (g1 & r & Hg1 & _ & _ & Hskip).
    rewrite Hg1 in Hq'. simpl in Hq'. unfold qualifies in Hq'.
    rewrite (Hskip rt2) in Hq'. discriminate. }
  split.
  - apply NoDup_app. split; [ | split ].
    + rewrite H1. apply NoDup_spec_posted_rows, SHEET_NAMES_NoDup.
    + intros [name k] Hin. rewrite H1 in Hin.
      apply elem_of_spec_posted_rows in Hin as (Hname & i & -> & Hi & Hq).
      destruct (tabs w0 !! name) as [g|] eqn:Hg; [ | simpl in Hi; lia ].
      exact (Hapart name i g Hname Hg Hi Hq).
    + rewrite H2. apply NoDup_spec_posted_rows.
      eapply sublist_NoDup; [ apply SHEET_NAMES_NoDup | apply sublist_take ].
  - intros name g i Hname Hg Hi Hq. split; [ | split ].
    + rewrite H1. apply elem_of_spec_posted_rows. split; [ exact Hname | ].
      exists i. rewrite Hg. auto.
    + exact (Hapart name i g Hname Hg Hi Hq).
    + destruct (posted_then_skipped rt1 w0 w1 SHEET_NAMES name g i Hmarks Hname Hg Hi Hq)
        as (g1 & r & Hg1 & Hr & Hs & Hskip).
      exists g1, r. auto.
Qed.

Lemma two_runs_post_once_witness :
  let sv := obliging "jwt" "did:plc:1" 0 in
  let rt := utc_runtime noon_2024_01_02 in
  let w1 := snd (postToBluesky sv rt sample_world) in
  let posted1 := posted_rows "" 0 (visits (run_events sv rt sample_world)) in
  let posted2 := posted_rows "" 0 (visits (run_events sv rt w1)) in
  NoDup (posted1 ++ posted2) /\
  forall name g i,
    name ∈ SHEET_NAMES ->
    tabs sample_world !! name = Some g ->
    1 <= i < length g ->
    qualifies rt g i = true ->
    ((name, i + 1) ∈ posted1) /\
    ((name, i + 1) ∉ posted2) /\
    exists g1 r,
      tabs w1 !! name = Some g1 /\ g1 !! i = Some r /\
      cell r 0 = VString "Posted" /\
      shouldPost rt g1 i = Ok (VBoolean false).
Proof.
  intros sv rt w1.
  apply (two_runs_post_once sv rt sv rt sample_world w1).
  - vm_compute. reflexivity.
  - vm_compute. repeat constructor.
Defined.

(** ** The scenario of "Hello world" *)

Lemma sheetBody_reads sv rt (token account : value) (sheetName : string)
    (w : World) (g : grid) :
  tabs w !! sheetName = Some g ->
  sheetBody sv rt token account sheetName w =
    rowLoop sv rt sheetName token account g (length g - 1) 1
      {| tabs := tabs w;
         trace := trace w ++ [EvLog (Searching sheetName); EvGetValues sheetName] |}.
Proof.
  intros Hg. unfold sheetBody, getValues. run_js. rewrite Hg. run_js.
  rewrite <- app_assoc. reflexivity.
Qed.




(** ** More on shouldPost *)

Local Open Scope Z_scope.

(** X1: a row whose status cell is anything but the string "Ready"
    (another text, a number, a boolean, a Date, no cell) does not
    qualify, whatever its date and content; with truthy content
    [shouldPost] returns [false]. *)
Theorem shouldPost_needs_ready rt (data : grid) (row : nat) (r : list value) :
  data !! row = Some r ->
  cell r 0 <> VString "Ready" ->
  qualifies rt data row = false /\
  (ToBoolean (cell r 8) = true -> shouldPost rt data row = Ok (VBoolean false)).
Proof.
  intros Hr Hs.
  assert (Hl : looselyEqualsReady (cell r 0) = false).
  { destruct (looselyEqualsReady (cell r 0)) eqn:E; [ | reflexivity ].
    apply looselyEqualsReady_true in E. contradiction. }
  unfold qualifies. destruct (ToBoolean (cell r 8)) eqn:Hc.
  - rewrite (shouldPost_truthy_content rt data row r Hr Hc), Hl. simpl. auto.
  - rewrite (shouldPost_falsy_content rt data row r Hr Hc).
    split; [ exact Hc | discriminate ].
Qed.

Lemma shouldPost_needs_ready_witness :
  let data := [header; make_row (VString "ready") jan_1 (VString "Hello world")] in
  qualifies (utc_runtime noon_2024_01_02) data 1 = false /\
  (ToBoolean (cell (make_row (VString "ready") jan_1 (VString "Hello world")) 8) = true ->
   shouldPost (utc_runtime noon_2024_01_02) data 1 = Ok (VBoolean false)).
Proof.
  intros data.
  apply (shouldPost_needs_ready (utc_runtime noon_2024_01_02) data 1
           (make_row (VString "ready") jan_1 (VString "Hello world"))).
  - reflexivity.
  - discriminate.
Defined.

(** X2: a row whose date cell gives no valid date (an empty cell or a
    text that [Date.parse] rejects, NaN, an invalid Date, no cell) does
    not qualify, whatever its status and content; with truthy content
    [shouldPost] returns [false]. *)
Theorem shouldPost_needs_valid_date rt (data : grid) (row : nat) (r : list value) :
  data !! row = Some r ->
  new_Date rt (cell r 1) = None ->
  qualifies rt data row = false /\
  (ToBoolean (cell r 8) = true -> shouldPost rt data row = Ok (VBoolean false)).
Proof.
  intros Hr Hd. unfold qualifies. destruct (ToBoolean (cell r 8)) eqn:Hc.
  - rewrite (shouldPost_truthy_content rt data row r Hr Hc), Hd. simpl.
    rewrite andb_false_r. auto.
  - rewrite (shouldPost_falsy_content rt data row r Hr Hc).
    split; [ exact Hc | discriminate ].
Qed.

Lemma shouldPost_needs_valid_date_witness :
  let r := make_row (VString "Ready") (VString "") (VString "Hello world") in
  qualifies (utc_runtime noon_2024_01_02) [header; r] 1 = false /\
  (ToBoolean (cell r 8) = true ->
   shouldPost (utc_runtime noon_2024_01_02) [header; r] 1 = Ok (VBoolean false)).
Proof.
  intros r.
  apply (shouldPost_needs_valid_date (utc_runtime noon_2024_01_02) [header; r] 1 r).
  - reflexivity.
  - reflexivity.
Defined.




(** X4: a row that is due stays due: when [shouldPost] returns [true]
    for a row, it does so for the same row whenever the script is loaded
    later, in the same zone and with the same [Date.parse]. *)
Theorem due_stays_due rt rt' (data : grid) (i : nat) :
  shouldPost rt data i = Ok (VBoolean true) ->
  LocalTZA rt' = LocalTZA rt ->
  Date_parse rt' = Date_parse rt ->
  load_time rt <= load_time rt' ->
  is_Some (today rt') ->
  shouldPost rt' data i = Ok (VBoolean true).
Proof.
  intros Hsp Hz Hp Hle Ht. apply qualifies_true.
  apply (qualifies_later rt rt' data i Hz Hp Hle Ht).
  apply qualifies_true, Hsp.
Qed.

Lemma due_stays_due_witness :
  shouldPost (utc_runtime (noon_2024_01_02 + 30 * msPerDay)) [header; hello_row] 1
  = Ok (VBoolean true).
Proof.
  apply (due_stays_due (utc_runtime noon_2024_01_02)
           (utc_runtime (noon_2024_01_02 + 30 * msPerDay)) [header; hello_row] 1).
  - reflexivity.
  - reflexivity.
  - reflexivity.
  - vm_compute. discriminate.
  - eexists. reflexivity.
Defined.




Local Close Scope Z_scope.

(** ** What the loops may do *)

Lemma follows_protocol_app (p2 p1 : option event) (a b : list event) :
  follows_protocol p2 p1 a = true ->
  (forall q2 q1, follows_protocol q2 q1 b = true) ->
  follows_protocol p2 p1 (a ++ b) = true.
Proof.
  revert p2 p1. induction a as [|e a IH]; intros p2 p1 Ha Hb; simpl.
  - apply Hb.
  - simpl in Ha. apply andb_true_iff in Ha as [He Ha].
    rewrite He. simpl. apply IH; assumption.
Qed.

Section RowsFrame.
Variables (sv : Services) (rt : Runtime) (sheetName : string).
Variables (token account : value) (data : grid).

(** The four ways a round of the loop over the rows can go. *)
Lemma rowBody_cases (w : World) (i : nat) :
  i < length data ->
  (qualifies rt data i = false /\
   rowBody sv rt sheetName token account data i w = (Ok tt, w))
  \/ (qualifies rt data i = true /\
      exists e,
        rowBody sv rt sheetName token account data i w =
          (Ok tt,
           {| tabs := tabs w;
              trace := trace w ++
                [EvLog (Posting (i + 1));
                 EvCreateRecord token (record_for sv account data w i) (Some e);
                 EvLog (ErrorPosting (i + 1) e)] |}))
  \/ (qualifies rt data i = true /\
      exists e,
        rowBody sv rt sheetName token account data i w =
          (Ok tt,
           {| tabs := tabs w;
              trace := trace w ++
                [EvLog (Posting (i + 1));
                 EvCreateRecord token (record_for sv account data w i) None;
                 EvSetValue sheetName (i + 1) 1 (VString "Posted") (Some e);
                 EvLog (ErrorPosting (i + 1) e)] |}))
  \/ (qualifies rt data i = true /\
      rowBody sv rt sheetName token account data i w =
        (Ok tt,
         {| tabs := alter (write_cell (i + 1) 1 (VString "Posted")) sheetName (tabs w);
            trace := trace w ++
              [EvLog (Posting (i + 1));
               EvCreateRecord token (record_for sv account data w i) None;
               EvSetValue sheetName (i + 1) 1 (VString "Posted") None] |})).
Proof.
  intros Hi. destruct (lookup_lt_is_Some_2 data i Hi) as [r Hr].
  destruct (qualifies rt data i) eqn:Hq.
  - right.
    destruct (createRecord_throws sv token (record_for sv account data w i)
                (trace_at_post w i)) as [e|] eqn:Hp.
    + left. split; [ reflexivity | ]. exists e.
      apply rowBody_post_throws; assumption.
    + right.
      destruct (setValue_throws sv sheetName (i + 1) 1 (VString "Posted")
                  (trace_at_post w i ++
                   [EvCreateRecord token (record_for sv account data w i) None]))
        as [e|] eqn:Hs.
      * left. split; [ reflexivity | ]. exists e.
        apply rowBody_write_throws; assumption.
      * right. split; [ reflexivity | ]. apply rowBody_posted; assumption.
  - left. split; [ reflexivity | ]. apply rowBody_skip; [ exact Hq | ].
    unfold shouldPost. rewrite Hr. eauto.
Qed.

Lemma rowBody_frame (w : World) (g : grid) (i : nat) :
  1 <= i ->
  i < length data ->
  tabs w !! sheetName = Some g ->
  length g = length data ->
  exists w1 new g1,
    rowBody sv rt sheetName token account data i w = (Ok tt, w1) /\
    moved sheetName w w1 new g g1 /\
    Forall (tab_event sheetName (length data) token account) new /\
    (forall p2 p1, follows_protocol p2 p1 new = true) /\
    (forall j, j <> i -> g1 !! j = g !! j) /\
    (g1 !! i = g !! i \/
     (qualifies rt data i = true /\ g1 !! i = mark_posted <$> g !! i)).
Proof.
  intros Hi1 Hi Hg Hlen. unfold moved.
  destruct (rowBody_cases w i Hi)
    as [[Hq Hb] | [[Hq [e Hb]] | [[Hq [e Hb]] | [Hq Hb]]]].
  - exists w, [], g. rewrite app_nil_r. repeat split; auto.
  - eexists _, _, g. split; [ exact Hb | ]. simpl.
    split; [ auto | ]. split.
    { repeat constructor; simpl; lia. }
    split.
    { intros p2 p1. cbn [follows_protocol allowed].
      rewrite !bool_decide_eq_true_2 by reflexivity. reflexivity. }
    auto.
  - eexists _, _, g. split; [ exact Hb | ]. simpl.
    split; [ auto | ]. split.
    { repeat constructor; simpl; lia. }
    split.
    { intros p2 p1. cbn [follows_protocol allowed].
      rewrite !bool_decide_eq_true_2 by reflexivity. reflexivity. }
    auto.
  - assert (Hig : i < length g) by lia.
    eexists _, _, (write_cell (i + 1) 1 (VString "Posted") g).
    split; [ exact Hb | ]. simpl. rewrite write_cell_row.
    split.
    { split; [ reflexivity | ]. split.
      - rewrite lookup_alter_eq, Hg. simpl. rewrite write_cell_row. reflexivity.
      - split; [ | apply update_at_length, Hig ].
        intros other Hne. apply lookup_alter_ne. congruence. }
    split.
    { repeat constructor; simpl; lia. }
    split.
    { intros p2 p1. cbn [follows_protocol allowed].
      rewrite !bool_decide_eq_true_2 by reflexivity. reflexivity. }
    split.
    { intros j Hj. apply update_at_lookup_ne; assumption. }
    right. split; [ exact Hq | ]. apply update_at_lookup_eq, Hig.
Qed.

Lemma rowLoop_frame (n : nat) : forall (i : nat) (w : World) (g : grid),
  1 <= i ->
  (forall j, i <= j < i + n -> j < length data) ->
  tabs w !! sheetName = Some g ->
  length g = length data ->
  exists w' new g',
    rowLoop sv rt sheetName token account data n i w = (Ok tt, w') /\
    moved sheetName w w' new g g' /\
    Forall (tab_event sheetName (length data) token account) new /\
    (forall p2 p1, follows_protocol p2 p1 new = true) /\
    (forall j,
       g' !! j = g !! j \/
       (i <= j /\ qualifies rt data j = true /\ g' !! j = mark_posted <$> g !! j)).
Proof.
  induction n as [|n IH]; intros i w g Hi1 Hrange Hg Hlen.
  - exists w, [], g. unfold moved. simpl. rewrite app_nil_r. repeat split; auto.
  - destruct (rowBody_frame w g i) as
      (w1 & new1 & g1 & Hbody & (Htr1 & Hg1 & Hother1 & Hlen1) & Hev1 & Hpr1
       & Hrest1 & Hrow1);
      [ exact Hi1 | apply Hrange; lia | exact Hg | exact Hlen | ].
    destruct (IH (S i) w1 g1) as
      (w' & new2 & g' & Hloop & (Htr2 & Hg2 & Hother2 & Hlen2) & Hev2 & Hpr2 & Hrows2);
      [ lia | intros j Hj; apply Hrange; lia | exact Hg1 | congruence | ].
    exists w', (new1 ++ new2), g'. split.
    { simpl. unfold bind at 1. rewrite Hbody. exact Hloop. }
    split.
    { unfold moved. split; [ rewrite Htr2, Htr1, app_assoc; reflexivity | ].
      split; [ exact Hg2 | ]. split; [ | congruence ].
      intros other Hne. rewrite Hother2, Hother1; auto. }
    split; [ apply Forall_app; auto | ].
    split; [ intros p2 p1; apply follows_protocol_app; auto | ].
    intros j. destruct (Hrows2 j) as [Hsame | (Hj & Hq & Hmark)].
    + rewrite Hsame. destruct (decide (j = i)) as [-> | Hji].
      * destruct Hrow1 as [Hrow1 | [Hq Hrow1]]; [ left; exact Hrow1 | ].
        right. split; [ lia | ]. split; assumption.
      * left. apply Hrest1, Hji.
    + right. split; [ lia | ]. split; [ exact Hq | ].
      rewrite Hmark, Hrest1; [ reflexivity | lia ].
Qed.

End RowsFrame.

Section TabsFrame.
Variables (sv : Services) (rt : Runtime) (token account : value).

Lemma sheetBody_frame (sheetName : string) (w : World) (g : grid) :
  tabs w !! sheetName = Some g ->
  exists w' new g',
    sheetBody sv rt token account sheetName w = (Ok tt, w') /\
    moved sheetName w w' new g g' /\
    Forall (tab_event sheetName (length g) token account) new /\
    (forall p2 p1, follows_protocol p2 p1 new = true) /\
    (forall j,
       g' !! j = g !! j \/
       (1 <= j /\ qualifies rt g j = true /\ g' !! j = mark_posted <$> g !! j)).
Proof.
  intros Hg.
  destruct (rowLoop_frame sv rt sheetName token account g (length g - 1) 1
              {| tabs := tabs w;
                 trace := trace w ++
                   [EvLog (Searching sheetName); EvGetValues sheetName] |} g)
    as (w' & new & g' & Hloop & (Htr & Hg' & Hother & Hlen) & Hev & Hpr & Hrows);
    [ lia | intros j Hj; lia | exact Hg | reflexivity | ].
  exists w', ([EvLog (Searching sheetName); EvGetValues sheetName] ++ new), g'.
  split.
  { rewrite (sheetBody_reads sv rt token account sheetName w g Hg). exact Hloop. }
  split.
  { unfold moved. simpl in *. rewrite Htr, <- app_assoc. auto. }
  split.
  { apply Forall_app. split; [ | exact Hev ]. repeat constructor. }
  split; [ | exact Hrows ].
  intros p2 p1. apply follows_protocol_app; [ | exact Hpr ].
  cbn [follows_protocol allowed].
  rewrite !bool_decide_eq_true_2 by reflexivity. reflexivity.
Qed.

Lemma sheet_frame_refl (names : list string) (m : gmap string grid) :
  sheet_frame rt names m m.
Proof.
  intros name. destruct (m !! name) as [g|]; [ | reflexivity ].
  exists g. auto.
Qed.

Lemma sheetLoop_frame (names : list string) : forall w : World,
  NoDup names ->
  exists r w' new,
    sheetLoop sv rt token account names w = (r, w') /\
    trace w' = trace w ++ new /\
    Forall (loop_event names (tabs w) token account) new /\
    (forall p2 p1, follows_protocol p2 p1 new = true) /\
    sheet_frame rt names (tabs w) (tabs w') /\
    (r = Ok tt -> forall name, name ∈ names -> is_Some (tabs w !! name)).
Proof.
  induction names as [|name names IH]; intros w Hnd.
  - exists (Ok tt), w, []. simpl. rewrite app_nil_r.
    repeat split; auto; [ apply sheet_frame_refl | ].
    intros _ name Hin. inversion Hin.
  - apply NoDup_cons in Hnd as [Hfresh Hnd].
    destruct (tabs w !! name) as [g|] eqn:Hg.
    + destruct (sheetBody_frame name w g Hg)
        as (w1 & new1 & g1 & Hbody & (Htr1 & Hg1 & Hother1 & Hlen1) & Hev1 & Hpr1
            & Hrows1).
      destruct (IH w1 Hnd)
        as (r & w' & new2 & Hloop & Htr2 & Hev2 & Hpr2 & Hframe2 & Hall2).
      assert (Hsame : forall name', name' ∈ names ->
                                    tabs w1 !! name' = tabs w !! name').
      { intros name' Hin. apply Hother1. intros ->. contradiction. }
      exists r, w', (new1 ++ new2). split.
      { simpl. unfold bind at 1. rewrite Hbody. exact Hloop. }
      split; [ rewrite Htr2, Htr1, app_assoc; reflexivity | ].
      split.
      { apply Forall_app. split.
        - eapply Forall_impl; [ exact Hev1 | ]. intros e He. exists name.
          split; [ apply list_elem_of_here | ]. rewrite Hg. exact He.
        - eapply Forall_impl; [ exact Hev2 | ]. intros e (name' & Hin & He).
          exists name'. split; [ apply list_elem_of_further, Hin | ].
          rewrite <- (Hsame name' Hin). exact He. }
      split; [ intros p2 p1; apply follows_protocol_app; auto | ].
      split.
      2: { intros Hr name0 Hin. apply elem_of_cons in Hin as [-> | Hin].
           - rewrite Hg. eauto.
           - rewrite <- (Hsame name0 Hin). apply Hall2; assumption. }
      intros name0. specialize (Hframe2 name0).
      destruct (decide (name0 = name)) as [-> | Hne].
      * rewrite Hg. rewrite Hg1 in Hframe2.
        destruct Hframe2 as (g' & Hg' & Hlen' & Hrows').
        exists g'. split; [ exact Hg' | ]. split; [ congruence | ].
        intros j. destruct (Hrows' j) as [Hj | (Hin & _)]; [ | contradiction ].
        rewrite Hj. destruct (Hrows1 j) as [Hj1 | (H1 & Hq & Hmark)];
          [ left; exact Hj1 | ].
        right. split; [ apply list_elem_of_here | ]. auto.
      * rewrite (Hother1 name0 Hne) in Hframe2.
        destruct (tabs w !! name0) as [g0|]; [ | exact Hframe2 ].
        destruct Hframe2 as (g' & Hg' & Hlen' & Hrows').
        exists g'. split; [ exact Hg' | ]. split; [ exact Hlen' | ].
        intros j. destruct (Hrows' j) as [Hj | (Hin & Hrest)]; [ left; exact Hj | ].
        right. split; [ apply list_elem_of_further, Hin | exact Hrest ].
    + destruct (sheetBody_missing sv rt token account name w Hg) as [e Hbody].
      exists (Throw e),
        {| tabs := tabs w; trace := trace w ++ [EvLog (Searching name)] |},
        [EvLog (Searching name)].
      split.
      { simpl. unfold bind at 1. rewrite Hbody. reflexivity. }
      split; [ reflexivity | ]. split.
      { repeat constructor. exists name. split; [ apply list_elem_of_here | ].
        reflexivity. }
      split; [ intros p2 p1; reflexivity | ].
      split; [ apply sheet_frame_refl | discriminate ].
Qed.

End TabsFrame.

(** ** What a run may do *)

Lemma run_frame sv rt (w : World) :
  exists r w' new,
    postToBluesky sv rt w = (r, w') /\
    trace w' = trace w ++ new /\
    Forall (run_event sv w) new /\
    follows_protocol None None new = true /\
    sheet_frame rt SHEET_NAMES (tabs w) (tabs w') /\
    (r = Ok tt ->
     signed_in sv w /\ forall name, name ∈ SHEET_NAMES -> is_Some (tabs w !! name)) /\
    (~ signed_in sv w ->
     (exists e, r = Throw e) /\ tabs w' = tabs w /\ Forall auth_event new).
Proof.
  unfold postToBluesky, SpreadsheetApp_openById, fetch_createSession, parse_session,
    signed_in.
  destruct (openById_throws sv SHEET_ID (trace w)) as [e|] eqn:Hopen.
  { exists (Throw e), {| tabs := tabs w;
                         trace := trace w ++ [EvOpenById SHEET_ID (Some e)] |},
      [EvOpenById SHEET_ID (Some e)].
    run_js. rewrite Hopen. run_js.
    split; [ reflexivity | ]. split; [ reflexivity | ].
    split; [ repeat constructor | ]. split; [ reflexivity | ].
    split; [ apply sheet_frame_refl | ]. split; [ discriminate | ].
    intros _. split; [ eauto | ]. split; [ reflexivity | repeat constructor ]. }
  destruct (createSession_response sv BSKY_HANDLE APP_PASSWORD
              (trace w ++ [EvOpenById SHEET_ID None])) as [body|e] eqn:Hfetch.
  2: { exists (Throw e),
         {| tabs := tabs w;
            trace := trace w ++ [EvOpenById SHEET_ID None;
                                 EvCreateSession BSKY_HANDLE APP_PASSWORD (Some e)] |},
         [EvOpenById SHEET_ID None;
          EvCreateSession BSKY_HANDLE APP_PASSWORD (Some e)].
       run_js. rewrite Hopen. run_js. rewrite Hfetch. run_js.
       rewrite <- app_assoc.
       split; [ reflexivity | ]. split; [ reflexivity | ].
       split; [ repeat constructor | ]. split; [ reflexivity | ].
       split; [ apply sheet_frame_refl | ]. split; [ discriminate | ].
       intros _. split; [ eauto | ]. split; [ reflexivity | repeat constructor ]. }
  pose (w2 := {| tabs := tabs w;
                 trace := trace w ++ [EvOpenById SHEET_ID None;
                            EvCreateSession BSKY_HANDLE APP_PASSWORD None] |}).
  assert (Hstopped : forall e0,
    exists r w' new,
      (Throw e0, w2) = (r, w') /\
      trace w' = trace w ++ new /\
      Forall (run_event sv w) new /\
      follows_protocol None None new = true /\
      sheet_frame rt SHEET_NAMES (tabs w) (tabs w') /\
      (r = Ok tt -> False) /\
      ((exists e, r = Throw e) /\ tabs w' = tabs w /\ Forall auth_event new)).
  { intros e0. exists (Throw e0), w2,
      [EvOpenById SHEET_ID None; EvCreateSession BSKY_HANDLE APP_PASSWORD None].
    split; [ reflexivity | ]. split; [ reflexivity | ].
    split; [ repeat constructor | ]. split; [ reflexivity | ].
    split; [ apply sheet_frame_refl | ]. split; [ discriminate | ].
    split; [ eauto | ]. split; [ reflexivity | repeat constructor ]. }
  destruct (JSON_parse sv body) as [[s|]|e] eqn:Hparse.
  - destruct (sheetLoop_frame sv rt (accessJwt s) (did s) SHEET_NAMES w2
                SHEET_NAMES_NoDup)
      as (r & w' & new & Hloop & Htr & Hev & Hpr & Hframe & Hall).
    exists r, w',
      ([EvOpenById SHEET_ID None;
        EvCreateSession BSKY_HANDLE APP_PASSWORD None] ++ new).
    split.
    { run_js. rewrite Hopen. run_js. rewrite Hfetch. run_js. rewrite Hparse.
      rewrite <- app_assoc. exact Hloop. }
    split; [ rewrite Htr; simpl; rewrite <- app_assoc; reflexivity | ].
    split.
    { apply Forall_app. split; [ repeat constructor | ].
      eapply Forall_impl; [ exact Hev | ]. intros ev Hloopev.
      assert (Hrun : exists body0 s0,
                createSession_response sv BSKY_HANDLE APP_PASSWORD
                  (trace w ++ [EvOpenById SHEET_ID None]) = Ok body0 /\
                JSON_parse sv body0 = Ok (Some s0) /\
                loop_event SHEET_NAMES (tabs w) (accessJwt s0) (did s0) ev)
        by (exists body, s; auto).
      destruct Hloopev as (name & Hin & Hev0).
      destruct ev as [ | | m | | | ]; try destruct m; simpl in Hev0;
        try contradiction; exact Hrun. }
    split.
    { change (follows_protocol None None
                ([EvOpenById SHEET_ID None;
                  EvCreateSession BSKY_HANDLE APP_PASSWORD None] ++ new) = true).
      apply follows_protocol_app; [ reflexivity | exact Hpr ]. }
    split; [ exact Hframe | ].
    split.
    { intros Hr. split; [ | exact (Hall Hr) ]. split; [ reflexivity | ].
      exists body, s. auto. }
    intros Hnot. exfalso. apply Hnot. split; [ reflexivity | ].
    exists body, s. auto.
  - destruct (Hstopped
                "TypeError: Cannot read properties of null (reading 'accessJwt')")
      as (r & w' & new & Heq & Htr & Hev & Hpr & Hframe & Hnok & Hrest).
    exists r, w', new. split.
    { run_js. rewrite Hopen. run_js. rewrite Hfetch. run_js. rewrite Hparse.
      rewrite <- app_assoc. exact Heq. }
    repeat (split; [ assumption | ]).
    split; [ intros Hr; destruct (Hnok Hr) | intros _; exact Hrest ].
  - destruct (Hstopped e)
      as (r & w' & new & Heq & Htr & Hev & Hpr & Hframe & Hnok & Hrest).
    exists r, w', new. split.
    { run_js. rewrite Hopen. run_js. rewrite Hfetch. run_js. rewrite Hparse.
      rewrite <- app_assoc. exact Heq. }
    repeat (split; [ assumption | ]).
    split; [ intros Hr; destruct (Hnok Hr) | intros _; exact Hrest ].
Qed.

Lemma run_events_frame sv rt (w : World) :
  Forall (run_event sv w) (run_events sv rt w) /\
  follows_protocol None None (run_events sv rt w) = true /\
  sheet_frame rt SHEET_NAMES (tabs w) (tabs (snd (postToBluesky sv rt w))).
Proof.
  destruct (run_frame sv rt w) as (r & w' & new & Hrun & Htr & Hev & Hpr & Hframe & _).
  rewrite (run_events_new sv rt w w' r new Hrun Htr), Hrun. auto.
Qed.

(** X7: a round of the loop over the rows never throws, whatever the
    services do.  It leaves the world as it was when the row does not
    qualify, and it changes the spreadsheet only when the row qualifies
    and both the fetch and the write returned, by the write of "Posted"
    at column 1 of the row. *)
Theorem round_never_throws sv rt (sheetName : string) (token account : value)
    (data : grid) (w : World) (i : nat) :
  i < length data ->
  exists w1,
    rowBody sv rt sheetName token account data i w = (Ok tt, w1) /\
    (qualifies rt data i = false -> w1 = w) /\
    (tabs w1 = tabs w \/
     (qualifies rt data i = true /\
      createRecord_throws sv token (record_for sv account data w i)
        (trace_at_post w i) = None /\
      setValue_throws sv sheetName (i + 1) 1 (VString "Posted")
        (trace_at_post w i ++
         [EvCreateRecord token (record_for sv account data w i) None]) = None /\
      tabs w1 =
        alter (write_cell (i + 1) 1 (VString "Posted")) sheetName (tabs w))).
Proof.
  intros Hi. destruct (lookup_lt_is_Some_2 data i Hi) as [r Hr].
  destruct (qualifies rt data i) eqn:Hq.
  - destruct (createRecord_throws sv token (record_for sv account data w i)
                (trace_at_post w i)) as [e|] eqn:Hp.
    { eexists. split; [ apply rowBody_post_throws; eassumption | ].
      split; [ discriminate | left; reflexivity ]. }
    destruct (setValue_throws sv sheetName (i + 1) 1 (VString "Posted")
                (trace_at_post w i ++
                 [EvCreateRecord token (record_for sv account data w i) None]))
      as [e|] eqn:Hs.
    { eexists. split; [ apply rowBody_write_throws; eassumption | ].
      split; [ discriminate | left; reflexivity ]. }
    eexists. split; [ apply rowBody_posted; eassumption | ].
    split; [ discriminate | right; auto ].
  - exists w. split.
    + apply rowBody_skip; [ exact Hq | ]. unfold shouldPost. rewrite Hr. eauto.
    + split; [ reflexivity | left; reflexivity ].
Qed.

Lemma round_never_throws_witness :
  let sv := refusing_posts "jwt" "did:plc:1" 0 in
  let rt := utc_runtime noon_2024_01_02 in
  let data := [header; hello_row] in
  exists w1,
    rowBody sv rt "Peak Share" (VString "jwt") (VString "did:plc:1") data 1
      sample_world = (Ok tt, w1) /\
    (qualifies rt data 1 = false -> w1 = sample_world) /\
    (tabs w1 = tabs sample_world \/
     (qualifies rt data 1 = true /\
      createRecord_throws sv (VString "jwt")
        (record_for sv (VString "did:plc:1") data sample_world 1)
        (trace_at_post sample_world 1) = None /\
      setValue_throws sv "Peak Share" (1 + 1) 1 (VString "Posted")
        (trace_at_post sample_world 1 ++
         [EvCreateRecord (VString "jwt")
            (record_for sv (VString "did:plc:1") data sample_world 1) None]) = None /\
      tabs w1 =
        alter (write_cell (1 + 1) 1 (VString "Posted")) "Peak Share"
          (tabs sample_world))).
Proof.
  intros sv rt data.
  apply (round_never_throws sv rt "Peak Share" (VString "jwt") (VString "did:plc:1")
           data sample_world 1).
  simpl. lia.
Defined.

(** X8: a run returns normally exactly when the spreadsheet opens, the
    authentication gives a session, and every tab of the list exists;
    nothing that happens to a row makes a run throw. *)
Theorem run_returns_iff sv rt (w : World) :
  fst (postToBluesky sv rt w) = Ok tt <->
  signed_in sv w /\ forall name, name ∈ SHEET_NAMES -> is_Some (tabs w !! name).
Proof.
  split.
  - destruct (run_frame sv rt w) as (r & w' & new & Hrun & _ & _ & _ & _ & Hok & _).
    rewrite Hrun. exact Hok.
  - destruct (run_summary sv rt w) as (r & w' & new & k & Hrun & _ & _ & _ & Hok & _).
    rewrite Hrun. intros [Hs Hall]. exact (Hok Hs Hall).
Qed.

(** X9: a run that gets no session (the spreadsheet does not open, the
    fetch of [createSession] throws, the response does not parse or
    parses to null) throws, leaves the spreadsheet as it was and makes no
    call but the opening and the fetch of the session. *)
Theorem no_session_no_work sv rt (w : World) :
  ~ signed_in sv w ->
  (exists e, fst (postToBluesky sv rt w) = Throw e) /\
  tabs (snd (postToBluesky sv rt w)) = tabs w /\
  Forall auth_event (run_events sv rt w).
Proof.
  intros Hnot.
  destruct (run_frame sv rt w) as (r & w' & new & Hrun & Htr & _ & _ & _ & _ & Hstop).
  rewrite (run_events_new sv rt w w' r new Hrun Htr), Hrun. exact (Hstop Hnot).
Qed.

Lemma no_session_no_work_witness :
  (exists e, fst (postToBluesky refusing_sessions (utc_runtime noon_2024_01_02)
                    sample_world) = Throw e) /\
  tabs (snd (postToBluesky refusing_sessions (utc_runtime noon_2024_01_02)
               sample_world)) = tabs sample_world /\
  Forall auth_event
    (run_events refusing_sessions (utc_runtime noon_2024_01_02) sample_world).
Proof.
  apply (no_session_no_work refusing_sessions (utc_runtime noon_2024_01_02)
           sample_world).
  intros [_ (body & s & Hfetch & _)]. discriminate Hfetch.
Defined.

(** X11: what a run does to the spreadsheet.  No tab appears or goes and
    no range changes its size; no cell outside column 1 changes; a
    status cell is as it was or, in a tab of the list and below the
    header, went from "Ready" to "Posted". *)
Theorem run_only_marks_status sv rt (w : World) (name : string) :
  match tabs w !! name with
  | None => tabs (snd (postToBluesky sv rt w)) !! name = None
  | Some g =>
      exists g',
        tabs (snd (postToBluesky sv rt w)) !! name = Some g' /\
        length g' = length g /\
        forall j r',
          g' !! j = Some r' ->
          exists r,
            g !! j = Some r /\
            (forall c, c <> 0 -> cell r' c = cell r c) /\
            (cell r' 0 = cell r 0 \/
             (name ∈ SHEET_NAMES /\ 1 <= j /\
              cell r 0 = VString "Ready" /\ cell r' 0 = VString "Posted"))
  end.
Proof.
  destruct (run_events_frame sv rt w) as (_ & _ & Hframe).
  specialize (Hframe name). destruct (tabs w !! name) as [g|]; [ | exact Hframe ].
  destruct Hframe as (g' & Hg' & Hlen & Hrows).
  exists g'. split; [ exact Hg' | ]. split; [ exact Hlen | ].
  intros j r' Hr'. destruct (Hrows j) as [Hsame | (Hin & Hj & Hq & Hmark)].
  - exists r'. rewrite <- Hsame. auto.
  - apply qualifies_spec in Hq as (r & d & t & Hr & _ & Hs & _).
    rewrite Hr, Hr' in Hmark. injection Hmark as ->.
    exists r. split; [ exact Hr | ]. split.
    + intros [|c] Hc; [ contradiction | apply cell_mark_posted_other ].
    + right. rewrite cell_mark_posted_status. auto.
Qed.

(** X12: the calls of a run come in the order of the script: the
    spreadsheet is opened first and the session asked for right after; a
    range is read right after the search of its tab is logged; a post is
    fetched right after its row is announced; "Posted" is written, for
    the row announced, only right after a fetch that returned; an error
    is logged only right after the call that threw it, with that row and
    that error. *)
Theorem run_follows_protocol sv rt (w : World) :
  follows_protocol None None (run_events sv rt w) = true.
Proof. destruct (run_events_frame sv rt w) as (_ & H & _). exact H. Qed.

(** X13: the only thing a run writes is "Posted", in column 1, in a tab
    of the list, at a row below the header and within the range that was
    read. *)
Theorem run_writes_only_posted sv rt (w : World) (name : string)
    (row column : nat) (v : value) (thrown : option string) :
  EvSetValue name row column v thrown ∈ run_events sv rt w ->
  name ∈ SHEET_NAMES /\
  2 <= row <= length (default [] (tabs w !! name)) /\
  column = 1 /\ v = VString "Posted".
Proof.
  intros Hin. destruct (run_events_frame sv rt w) as (Hev & _).
  rewrite Forall_forall in Hev. specialize (Hev _ Hin). simpl in Hev.
  destruct Hev as (_ & _ & _ & _ & name' & Hname & -> & Hrest). auto.
Qed.

Lemma run_writes_only_posted_witness :
  "Peak Share" ∈ SHEET_NAMES /\
  2 <= 2 <= length (default [] (tabs sample_world !! "Peak Share")) /\
  1 = 1 /\ VString "Posted" = VString "Posted".
Proof.
  apply (run_writes_only_posted (obliging "jwt" "did:plc:1" 0)
           (utc_runtime noon_2024_01_02) sample_world "Peak Share" 2 1
           (VString "Posted") None).
  apply list_elem_of_In. vm_compute. auto 10.
Defined.

(** X14: every post of a run is sent with the token of the session that
    the run obtained, for the account of that session, to the collection
    "app.bsky.feed.post" and with that record type. *)
Theorem run_posts_with_session sv rt (w : World) (token : value) (r : PostRecord)
    (thrown : option string) :
  EvCreateRecord token r thrown ∈ run_events sv rt w ->
  exists body s,
    createSession_response sv BSKY_HANDLE APP_PASSWORD
      (trace w ++ [EvOpenById SHEET_ID None]) = Ok body /\
    JSON_parse sv body = Ok (Some s) /\
    token = accessJwt s /\ repo r = did s /\
    collection r = "app.bsky.feed.post" /\ record_type r = "app.bsky.feed.post".
Proof.
  intros Hin. destruct (run_events_frame sv rt w) as (Hev & _).
  rewrite Forall_forall in Hev. specialize (Hev _ Hin). simpl in Hev.
  destruct Hev as (body & s & Hfetch & Hparse & name' & _ & Hrest).
  exists body, s. simpl in Hrest. tauto.
Qed.

Lemma run_posts_with_session_witness :
  let sv := obliging "jwt" "did:plc:1" 0 in
  let r := make_postRecord (VString "did:plc:1") (VString "Hello world") 0 in
  exists body s,
    createSession_response sv BSKY_HANDLE APP_PASSWORD
      (trace sample_world ++ [EvOpenById SHEET_ID None]) = Ok body /\
    JSON_parse sv body = Ok (Some s) /\
    VString "jwt" = accessJwt s /\ repo r = did s /\
    collection r = "app.bsky.feed.post" /\ record_type r = "app.bsky.feed.post".
Proof.
  intros sv r.
  apply (run_posts_with_session sv (utc_runtime noon_2024_01_02) sample_world
           (VString "jwt") r None).
  apply list_elem_of_In. vm_compute. auto 10.
Defined.

(** ** A tab that does not exist *)

Lemma sheetLoop_stops sv rt (token account : value) (name : string)
    (post : list string) (pre : list string) : forall w : World,
  NoDup (pre ++ name :: post) ->
  (forall n, n ∈ pre -> is_Some (tabs w !! n)) ->
  tabs w !! name = None ->
  exists w' new,
    sheetLoop sv rt token account (pre ++ name :: post) w =
      (Throw "TypeError: Cannot read properties of null (reading 'getDataRange')",
       w') /\
    trace w' = trace w ++ new /\
    visits new = spec_visits rt (tabs w) pre /\
    (forall other, other ∉ pre -> tabs w' !! other = tabs w !! other).
Proof.
  induction pre as [|n pre IH]; intros w Hnd Hall Hmiss.
  - exists {| tabs := tabs w; trace := trace w ++ [EvLog (Searching name)] |},
      [EvLog (Searching name)].
    split; [ | auto ].
    simpl. unfold bind at 1, sheetBody, getValues. run_js. rewrite Hmiss.
    reflexivity.
  - simpl in Hnd. apply NoDup_cons in Hnd as [Hfresh Hnd].
    destruct (Hall n) as [g Hg]; [ apply list_elem_of_here | ].
    destruct (sheetBody_summary sv rt token account n w g Hg)
      as (w1 & new1 & g1 & Hbody & (Htr1 & Hg1 & Hother1 & Hlen1) & Hv1 & _).
    assert (Hsame : forall n', n' ∈ pre ++ name :: post ->
                               tabs w1 !! n' = tabs w !! n').
    { intros n' Hin. apply Hother1. intros ->. contradiction. }
    destruct (IH w1 Hnd) as (w' & new2 & Hloop & Htr2 & Hv2 & Hother2).
    { intros n' Hin. rewrite Hsame; [ | apply elem_of_app; auto ].
      apply Hall, list_elem_of_further, Hin. }
    { rewrite Hsame; [ exact Hmiss | ].
      apply elem_of_app. right. apply list_elem_of_here. }
    exists w', (new1 ++ new2). split.
    { simpl. unfold bind at 1. rewrite Hbody. exact Hloop. }
    split; [ rewrite Htr2, Htr1, app_assoc; reflexivity | ].
    split.
    { unfold visits in *. rewrite bind_app, Hv1, Hv2. simpl. rewrite Hg. simpl.
      f_equal. f_equal. apply spec_visits_ext. intros n' Hin.
      apply Hsame, elem_of_app. auto. }
    intros other Hnot. apply not_elem_of_cons in Hnot as [Hne Hnot].
    rewrite Hother2 by exact Hnot. apply Hother1, Hne.
Qed.

(** X10: when a tab of the list does not exist, a run that has its
    session throws a TypeError at that tab: the tabs before it in the
    list were worked through as usual, the tabs after it are not read. *)
Theorem missing_tab_stops_run sv rt (w : World) (pre post : list string)
    (name : string) :
  signed_in sv w ->
  SHEET_NAMES = pre ++ name :: post ->
  (forall n, n ∈ pre -> is_Some (tabs w !! n)) ->
  tabs w !! name = None ->
  fst (postToBluesky sv rt w) =
    Throw "TypeError: Cannot read properties of null (reading 'getDataRange')" /\
  visits (run_events sv rt w) = spec_visits rt (tabs w) pre.
Proof.
  intros (Hopen & body & s & Hfetch & Hparse) Hnames Hall Hmiss.
  pose (w2 := {| tabs := tabs w;
                 trace := trace w ++ [EvOpenById SHEET_ID None;
                            EvCreateSession BSKY_HANDLE APP_PASSWORD None] |}).
  destruct (sheetLoop_stops sv rt (accessJwt s) (did s) name post pre w2)
    as (w' & new & Hloop & Htr & Hv & _);
    [ rewrite <- Hnames; apply SHEET_NAMES_NoDup | exact Hall | exact Hmiss | ].
  assert (Hrun : postToBluesky sv rt w =
            (Throw "TypeError: Cannot read properties of null (reading 'getDataRange')",
             w')).
  { unfold postToBluesky. rewrite Hnames.
    unfold SpreadsheetApp_openById, fetch_createSession, parse_session.
    run_js. rewrite Hopen. run_js. rewrite Hfetch. run_js. rewrite Hparse.
    rewrite <- app_assoc. exact Hloop. }
  split; [ rewrite Hrun; reflexivity | ].
  rewrite (run_events_new sv rt w w' _
             ([EvOpenById SHEET_ID None;
               EvCreateSession BSKY_HANDLE APP_PASSWORD None] ++ new) Hrun).
  - unfold visits in *. rewrite bind_app, Hv. reflexivity.
  - rewrite Htr. simpl. rewrite <- app_assoc. reflexivity.
Qed.

Lemma missing_tab_stops_run_witness :
  let sv := obliging "jwt" "did:plc:1" 0 in
  let rt := utc_runtime noon_2024_01_02 in
  let w := {| tabs := <["Peak Share" := [header; hello_row]]> ∅; trace := [] |} in
  fst (postToBluesky sv rt w) =
    Throw "TypeError: Cannot read properties of null (reading 'getDataRange')" /\
  visits (run_events sv rt w) = spec_visits rt (tabs w) ["Peak Share"].
Proof.
  intros sv rt w.
  apply (missing_tab_stops_run sv rt w ["Peak Share"] [] "Peak Generation").
  - split; [ reflexivity | ]. eexists _, _. split; reflexivity.
  - reflexivity.
  - intros n Hn. apply list_elem_of_singleton in Hn. subst n.
    eexists. reflexivity.
  - reflexivity.
Defined.

(** ** The rows a run submits *)

Lemma posted_rows_of_run sv rt (w : World) :
  exists k,
    posted_rows "" 0 (visits (run_events sv rt w))
    = spec_posted_rows rt (tabs w) (take k SHEET_NAMES) /\
    (fst (postToBluesky sv rt w) = Ok tt -> k = length SHEET_NAMES).
Proof.
  destruct (run_summary sv rt w) as (r & w' & new & k & Hrun & Htr & Hv & Hk & _).
  exists k. rewrite (run_events_new sv rt w w' r new Hrun Htr), Hv, Hrun.
  split; [ apply posted_rows_of_spec | exact Hk ].
Qed.

(** X15: a run submits only rows that qualified when their tab was read,
    in tabs of the list, and never row 1 of a tab, whatever it holds. *)
Theorem run_posts_only_qualifying sv rt (w : World) (name : string) (k : nat) :
  (name, k) ∈ posted_rows "" 0 (visits (run_events sv rt w)) ->
  name ∈ SHEET_NAMES /\
  2 <= k <= length (default [] (tabs w !! name)) /\
  qualifies rt (default [] (tabs w !! name)) (k - 1) = true.
Proof.
  destruct (posted_rows_of_run sv rt w) as (n & -> & _). intros Hin.
  apply elem_of_spec_posted_rows in Hin as (Hname & i & -> & Hi & Hq).
  split; [ eapply subseteq_take, Hname | ]. split; [ lia | ].
  replace (i + 1 - 1) with i by lia. exact Hq.
Qed.

Lemma run_posts_only_qualifying_witness :
  let rt := utc_runtime noon_2024_01_02 in
  "Peak Share" ∈ SHEET_NAMES /\
  2 <= 5 <= length (default [] (tabs busy_world !! "Peak Share")) /\
  qualifies rt (default [] (tabs busy_world !! "Peak Share")) (5 - 1) = true.
Proof.
  intros rt.
  apply (run_posts_only_qualifying (refusing_posts "jwt" "did:plc:1" 0) rt busy_world
           "Peak Share" 5).
  apply list_elem_of_In. vm_compute. auto 10.
Defined.

(** X16: within one run no row is submitted twice, whatever fails in
    the run. *)
Theorem run_posts_each_row_once sv rt (w : World) :
  NoDup (posted_rows "" 0 (visits (run_events sv rt w))).
Proof.
  destruct (posted_rows_of_run sv rt w) as (k & -> & _).
  apply NoDup_spec_posted_rows.
  eapply sublist_NoDup; [ apply SHEET_NAMES_NoDup | apply sublist_take ].
Qed.

Lemma qualifies_same_row rt (data data' : grid) (i : nat) :
  data' !! i = data !! i -> qualifies rt data' i = qualifies rt data i.
Proof. intros H. unfold qualifies, shouldPost. rewrite H. reflexivity. Qed.

(** X17: two runs that return, the second loaded no earlier than the
    first, in the same zone.  A row that qualified in the first run was
    submitted in it; after it the row is as it was or has its status
    marked; and the second run submits the row again exactly when the
    row is as it was, which is what a failed post or a failed write of
    "Posted" leaves. *)
Theorem unmarked_row_is_posted_again sv1 rt1 sv2 rt2 (w0 w1 w2 : World)
    (name : string) (g : grid) (i : nat) :
  postToBluesky sv1 rt1 w0 = (Ok tt, w1) ->
  postToBluesky sv2 rt2 w1 = (Ok tt, w2) ->
  LocalTZA rt2 = LocalTZA rt1 ->
  Date_parse rt2 = Date_parse rt1 ->
  (load_time rt1 <= load_time rt2)%Z ->
  is_Some (today rt2) ->
  name ∈ SHEET_NAMES ->
  tabs w0 !! name = Some g ->
  1 <= i < length g ->
  qualifies rt1 g i = true ->
  ((name, i + 1) ∈ posted_rows "" 0 (visits (run_events sv1 rt1 w0))) /\
  exists g1,
    tabs w1 !! name = Some g1 /\
    (g1 !! i = g !! i \/ g1 !! i = mark_posted <$> g !! i) /\
    ((name, i + 1) ∈ posted_rows "" 0 (visits (run_events sv2 rt2 w1))
     <-> g1 !! i = g !! i).
Proof.
  intros Hrun1 Hrun2 Hz Hp Hle Ht Hname Hg Hi Hq.
  destruct (posted_rows_of_run sv1 rt1 w0) as (k1 & -> & Hk1).
  destruct (posted_rows_of_run sv2 rt2 w1) as (k2 & -> & Hk2).
  rewrite Hrun1 in Hk1. rewrite Hrun2 in Hk2.
  rewrite (Hk1 eq_refl), (Hk2 eq_refl). simpl take.
  destruct (run_events_frame sv1 rt1 w0) as (_ & _ & Hframe).
  rewrite Hrun1 in Hframe. simpl in Hframe. specialize (Hframe name).
  rewrite Hg in Hframe. destruct Hframe as (g1 & Hg1 & Hlen & Hrows).
  destruct (lookup_lt_is_Some_2 g i) as [r Hr]; [ lia | ].
  split.
  { apply elem_of_spec_posted_rows. split; [ exact Hname | ].
    exists i. rewrite Hg. auto. }
  exists g1. split; [ exact Hg1 | ]. split.
  { destruct (Hrows i) as [H | (_ & _ & _ & H)]; auto. }
  split.
  - intros Hin. apply elem_of_spec_posted_rows in Hin as (_ & i' & Heq & _ & Hq2).
    assert (i' = i) by lia. subst i'. rewrite Hg1 in Hq2. simpl in Hq2.
    destruct (Hrows i) as [H | (_ & _ & _ & H)]; [ exact H | ].
    rewrite Hr in H. simpl in H.
    pose proof (marked_row_is_skipped rt1 rt2 g g1 i r Hr H Hq) as Hskip.
    unfold qualifies in Hq2. rewrite Hskip in Hq2. discriminate.
  - intros Hsame. apply elem_of_spec_posted_rows. split; [ exact Hname | ].
    exists i. rewrite Hg1. simpl. split; [ reflexivity | ]. split; [ lia | ].
    apply (qualifies_later rt1 rt2 g1 i Hz Hp Hle Ht).
    rewrite (qualifies_same_row rt1 g g1 i Hsame). exact Hq.
Qed.

Lemma unmarked_row_is_posted_again_witness :
  let sv1 := refusing_writes "jwt" "did:plc:1" 0 in
  let sv2 := obliging "jwt" "did:plc:1" 0 in
  let rt := utc_runtime noon_2024_01_02 in
  let w1 := snd (postToBluesky sv1 rt sample_world) in
  ((("Peak Share", 1 + 1) ∈
      posted_rows "" 0 (visits (run_events sv1 rt sample_world)))) /\
  exists g1,
    tabs w1 !! "Peak Share" = Some g1 /\
    (g1 !! 1 = [header; hello_row] !! 1 \/
     g1 !! 1 = mark_posted <$> [header; hello_row] !! 1) /\
    (("Peak Share", 1 + 1) ∈ posted_rows "" 0 (visits (run_events sv2 rt w1))
     <-> g1 !! 1 = [header; hello_row] !! 1).
Proof.
  intros sv1 sv2 rt w1.
  apply (unmarked_row_is_posted_again sv1 rt sv2 rt sample_world w1
           (snd (postToBluesky sv2 rt w1)) "Peak Share" [header; hello_row] 1).
  - vm_compute. reflexivity.
  - vm_compute. reflexivity.
  - reflexivity.
  - reflexivity.
  - reflexivity.
  - eexists. reflexivity.
  - apply list_elem_of_here.
  - reflexivity.
  - simpl. lia.
  - reflexivity.
Defined.
